(** * Blood-sugar statistics tracker ([src/index.ts])

    A shallow embedding of the tracker module and the properties of its
    three operations, [addMeasurement], [getCurrentPeriodStats] and
    [switchPeriod].

    - A JavaScript [number] is an IEEE 754 binary64 value: Rocq's primitive
      [float], with the same rounding and the same comparisons (every
      comparison with NaN is false).
    - The period objects, their counter objects and their time-statistics
      objects are mutable JavaScript objects reached through references;
      [addMeasurement] writes to them in place.  They live in a [heap], and
      a state holds references into it.
    - The state object, its [range] object and its [statsByPeriod] object
      are never written to (each call builds new ones with a spread), so
      they are plain values. *)

From Stdlib Require Import Floats.
From stdpp Require Import gmap strings list fin_maps.

#[local] Set Warnings "-inexact-float".

(** ** Data model *)

(** [number]: the only numeric type of the source. *)
Abbreviation number := float.

(** References to heap objects. *)
Abbreviation loc := positive.

(** [interface BloodSugarRange]. *)
Module Range.
Record t : Type := mk {
  veryHigh : number;
  high : number * number;
  normal : number * number;
  low : number
}.
End Range.

(** [interface BloodSugarCounters]. *)
Module Counters.
Record t : Type := mk {
  veryHigh : number;
  high : number;
  normal : number;
  low : number
}.
End Counters.

Abbreviation BloodSugarRange := Range.t.
Abbreviation BloodSugarCounters := Counters.t.

(** [keyof BloodSugarTimeStats]: the eight property names of the interface. *)
Inductive TimeCategory : Type :=
  | beforeBreakfast | afterBreakfast
  | beforeLunch | afterLunch
  | beforeDinner | afterDinner
  | beforeSleep | random.

#[global] Instance TimeCategory_eq_dec : EqDecision TimeCategory.
Proof. solve_decision. Defined.

(** [interface BloodSugarTimeStats]: an object with optional properties.
    Its own properties are kept in insertion order, which is the order
    [Object.values] enumerates them in; a property may be present and hold
    [undefined] ([None]). *)
Definition BloodSugarTimeStats : Type := list (TimeCategory * option number).

(** [interface BloodSugarPeriodStats].  [counters] and [timeStats] are
    references to the nested objects. *)
Record BloodSugarPeriodStats : Type := mkPeriod {
  startDate : string;
  endDate : string;
  average : option number;
  highest : option number;
  lowest : option number;
  counters : loc;
  timeStats : loc
}.

(** [interface BloodSugarAppState].  [statsByPeriod] holds the own
    properties of the record object: label to period reference. *)
Record BloodSugarAppState : Type := mkState {
  range : BloodSugarRange;
  statsByPeriod : gmap string loc;
  currentPeriod : string
}.

(** The store of mutable objects. *)
Record heap : Type := mkHeap {
  periodObjs : gmap loc BloodSugarPeriodStats;
  counterObjs : gmap loc BloodSugarCounters;
  timeStatsObjs : gmap loc BloodSugarTimeStats
}.

(** ** Property reads on [statsByPeriod]

    [statsByPeriod] is built by object literals, so its prototype is
    [Object.prototype]: a read [statsByPeriod[k]] yields the own property
    when there is one, a member of [Object.prototype] when [k] names one,
    and [undefined] otherwise. *)

Inductive jsval : Type :=
  | Undefined
  | PeriodRef (l : loc)
  | Inherited (k : string).

#[global] Instance jsval_eq_dec : EqDecision jsval.
Proof. solve_decision. Defined.

(** The property names of [Object.prototype] (ECMAScript, with Annex B). *)
Definition Object_prototype_keys : list string :=
  [ "constructor"; "hasOwnProperty"; "isPrototypeOf"; "propertyIsEnumerable";
    "toLocaleString"; "toString"; "valueOf"; "__proto__";
    "__defineGetter__"; "__defineSetter__"; "__lookupGetter__";
    "__lookupSetter__" ]%string.

Definition getProp (o : gmap string loc) (k : string) : jsval :=
  match o !! k with
  | Some l => PeriodRef l
  | None => if bool_decide (k ∈ Object_prototype_keys) then Inherited k else Undefined
  end.

(** [ToBoolean]: objects and functions are truthy, [undefined] is falsy. *)
Definition truthy (v : jsval) : bool :=
  match v with
  | Undefined => false
  | PeriodRef _ | Inherited _ => true
  end.

(** ** Computations over the heap that may throw *)

Inductive error : Type :=
  | TypeError
  | Error (message : string).

(** The outcome of a call: a value, or a thrown error, each with the heap
    as the call left it.  [Dangling] is a read through a reference that the
    heap does not hold, which no JavaScript program can make. *)
Inductive res (A : Type) : Type :=
  | Ok (a : A) (h : heap)
  | Thrown (e : error) (h : heap)
  | Dangling.
Arguments Ok {A} a h.
Arguments Thrown {A} e h.
Arguments Dangling {A}.

Definition M (A : Type) : Type := heap → res A.

#[global] Instance M_ret : MRet M := λ A a h, Ok a h.
#[global] Instance M_bind : MBind M := λ A B f m h,
  match m h with
  | Ok a h' => f a h'
  | Thrown e h' => Thrown e h'
  | Dangling => Dangling
  end.

Definition throw {A : Type} (e : error) : M A := λ h, Thrown e h.

(** [try { m } catch (err) { handler }]. *)
Definition catch {A : Type} (m : M A) (handler : error → M A) : M A := λ h,
  match m h with
  | Ok a h' => Ok a h'
  | Thrown e h' => handler e h'
  | Dangling => Dangling
  end.

(** Reads and writes of one object. *)
Definition readPeriod (l : loc) : M BloodSugarPeriodStats := λ h,
  match periodObjs h !! l with Some p => Ok p h | None => Dangling end.

Definition writePeriod (l : loc) (p : BloodSugarPeriodStats) : M unit := λ h,
  Ok tt (mkHeap (<[l := p]> (periodObjs h)) (counterObjs h) (timeStatsObjs h)).

Definition readCounters (l : loc) : M Counters.t := λ h,
  match counterObjs h !! l with Some c => Ok c h | None => Dangling end.

Definition writeCounters (l : loc) (c : Counters.t) : M unit := λ h,
  Ok tt (mkHeap (periodObjs h) (<[l := c]> (counterObjs h)) (timeStatsObjs h)).

Definition readTimeStats (l : loc) : M BloodSugarTimeStats := λ h,
  match timeStatsObjs h !! l with Some ts => Ok ts h | None => Dangling end.

Definition writeTimeStats (l : loc) (ts : BloodSugarTimeStats) : M unit := λ h,
  Ok tt (mkHeap (periodObjs h) (counterObjs h) (<[l := ts]> (timeStatsObjs h))).

(** ** The operations of [src/index.ts] *)

Section Operations.
#[local] Open Scope float_scope.

(** [x ?? d]. *)
Definition nullish (x : option number) (d : number) : number :=
  match x with Some v => v | None => d end.

(** [ts[k]] as an own property: [None] when [ts] has no property [k]. *)
Fixpoint tsLookup (k : TimeCategory) (ts : BloodSugarTimeStats)
    : option (option number) :=
  match ts with
  | [] => None
  | (k', v) :: rest => if decide (k = k') then Some v else tsLookup k rest
  end.

(** The value of the read [ts[k]]: [undefined] ([None]) when the property
    is absent or holds [undefined]. *)
Definition tsGet (k : TimeCategory) (ts : BloodSugarTimeStats) : option number :=
  match tsLookup k ts with Some v => v | None => None end.

(** [ts[k] = v]: an existing property keeps its place, a new one goes
    last. *)
Fixpoint tsSet (k : TimeCategory) (v : number) (ts : BloodSugarTimeStats)
    : BloodSugarTimeStats :=
  match ts with
  | [] => [(k, Some v)]
  | (k', v') :: rest =>
      if decide (k = k') then (k, Some v) :: rest else (k', v') :: tsSet k v rest
  end.

(** [Object.values(ts)]. *)
Definition Object_values (ts : BloodSugarTimeStats) : list (option number) :=
  map snd ts.

(** [xs.reduce(f, init)]. *)
Definition reduce {A B : Type} (f : B → A → B) (init : B) (xs : list A) : B :=
  fold_left f xs init.

(** The first access to a property of [period] throws a [TypeError] when
    [period] is [undefined].  When [period] is a member of
    [Object.prototype], [period.highest] and [period.lowest] read as
    [undefined], the two comparisons with them are false, and
    [period.counters] is [undefined], so the first read of a counter
    throws.  On every path the throw comes before any write. *)
Definition asPeriod (v : jsval) : M loc :=
  match v with
  | PeriodRef l => mret l
  | Undefined | Inherited _ => throw TypeError
  end.

(** [period.counters.f++] for each of the four counters. *)
Definition incrCounter (f : Counters.t → Counters.t) (period : loc) : M unit :=
  p ← readPeriod period;
  c ← readCounters (counters p);
  writeCounters (counters p) (f c).

Definition veryHigh_incr (c : Counters.t) : Counters.t :=
  Counters.mk (Counters.veryHigh c + 1) (Counters.high c) (Counters.normal c) (Counters.low c).
Definition high_incr (c : Counters.t) : Counters.t :=
  Counters.mk (Counters.veryHigh c) (Counters.high c + 1) (Counters.normal c) (Counters.low c).
Definition normal_incr (c : Counters.t) : Counters.t :=
  Counters.mk (Counters.veryHigh c) (Counters.high c) (Counters.normal c + 1) (Counters.low c).
Definition low_incr (c : Counters.t) : Counters.t :=
  Counters.mk (Counters.veryHigh c) (Counters.high c) (Counters.normal c) (Counters.low c + 1).

(** [period.highest = v], [period.lowest = v], [period.average = v]. *)
Definition setHighest (period : loc) (v : number) : M unit :=
  p ← readPeriod period;
  writePeriod period
    (mkPeriod (startDate p) (endDate p) (average p) (Some v) (lowest p)
              (counters p) (timeStats p)).

Definition setLowest (period : loc) (v : number) : M unit :=
  p ← readPeriod period;
  writePeriod period
    (mkPeriod (startDate p) (endDate p) (average p) (highest p) (Some v)
              (counters p) (timeStats p)).

Definition setAverage (period : loc) (v : number) : M unit :=
  p ← readPeriod period;
  writePeriod period
    (mkPeriod (startDate p) (endDate p) (Some v) (highest p) (lowest p)
              (counters p) (timeStats p)).

(** [function addMeasurement(state, level, timeCategory?)].
    [level > b] is [b <? level] and [level >= b] is [b <=? level]. *)
Definition addMeasurement (state : BloodSugarAppState) (level : number)
    (timeCategory : option TimeCategory) : M BloodSugarAppState :=
  period ← asPeriod (getProp (statsByPeriod state) (currentPeriod state));
  (* Update counters based on the level *)
  (if Range.veryHigh (range state) <? level then
     incrCounter veryHigh_incr period
   else if (fst (Range.high (range state)) <=? level)
           && (level <=? snd (Range.high (range state))) then
     incrCounter high_incr period
   else if (fst (Range.normal (range state)) <=? level)
           && (level <=? snd (Range.normal (range state))) then
     incrCounter normal_incr period
   else if level <? Range.low (range state) then
     incrCounter low_incr period
   else mret tt);;
  (* Update highest and lowest values *)
  p ← readPeriod period;
  (if match highest p with None => true | Some hi => hi <? level end
   then setHighest period level else mret tt);;
  p ← readPeriod period;
  (if match lowest p with None => true | Some lo => level <? lo end
   then setLowest period level else mret tt);;
  (* Update average *)
  p ← readPeriod period;
  c ← readCounters (counters p);
  let totalMeasurements :=
    Counters.veryHigh c + Counters.high c + Counters.normal c + Counters.low c in
  setAverage period
    ((nullish (average p) 0 * (totalMeasurements - 1) + level) / totalMeasurements);;
  (* Update time-specific statistics *)
  match timeCategory with
  | Some timeCategory =>
      p ← readPeriod period;
      ts ← readTimeStats (timeStats p);
      let currentStat := nullish (tsGet timeCategory ts) 0 in
      let totalForCategory :=
        reduce (λ total value, total + nullish value 0) 0 (Object_values ts) in
      writeTimeStats (timeStats p)
        (tsSet timeCategory
           ((currentStat * (totalForCategory - 1) + level) / totalMeasurements) ts)
  | None => mret tt
  end;;
  mret (mkState (range state)
                (<[currentPeriod state := period]> (statsByPeriod state))
                (currentPeriod state)).

(** [function getCurrentPeriodStats(state)]. *)
Definition getCurrentPeriodStats (state : BloodSugarAppState) : jsval :=
  getProp (statsByPeriod state) (currentPeriod state).

(** [function switchPeriod(state, period)]. *)
Definition switchPeriod (state : BloodSugarAppState) (period : string)
    : M BloodSugarAppState :=
  if negb (truthy (getProp (statsByPeriod state) period)) then
    throw (Error "Invalid period")
  else
    mret (mkState (range state) (statsByPeriod state) period).

(** [function simulateApp(databaseObject)], which the module runs on
    [initialState] when it is loaded.  [{ ...databaseObject }] is a new
    state object with the fields of the old one, so it refers to the same
    period objects.  The two [console.log] calls and the [console.error] of
    the handler print and change nothing. *)
Definition simulateApp (databaseObject : BloodSugarAppState) : M BloodSugarAppState :=
  let state := mkState (range databaseObject) (statsByPeriod databaseObject)
                       (currentPeriod databaseObject) in
  state ← addMeasurement state 5.5 (Some beforeBreakfast);
  state ← addMeasurement state 7.8 (Some afterLunch);
  state ← addMeasurement state 9.3 (Some random);
  state ← addMeasurement state 3.9 (Some beforeSleep);
  state ← catch (switchPeriod state "14") (λ err, mret state);
  mret state.
End Operations.

(** ** The initial state *)

Section InitialState.
#[local] Open Scope float_scope.

(** [calculateDateOffset] reads the wall clock; the dates it returns are
    informational only, and the date is taken as fixed while the initial
    state is built. *)
Variable calculateDateOffset : number → string.

(** The [range] of [initialState]. *)
Definition defaultRange : Range.t := Range.mk 9 (6, 9) (4, 6) 4.

Definition zeroCounters : Counters.t := Counters.mk 0 0 0 0.

(** One period literal of [initialState], its two nested literals being
    the objects at [c] and [t]. *)
Definition freshPeriod (days : number) (c t : loc) : BloodSugarPeriodStats :=
  mkPeriod (calculateDateOffset days) (calculateDateOffset 0)
           None None None c t.

(** The objects the literal of [initialState] allocates: one period, one
    counters and one time-statistics object per label. *)
Definition initialHeap : heap :=
  mkHeap
    (<[1%positive := freshPeriod 7 1 1]>
       (<[2%positive := freshPeriod 14 2 2]>
          (<[3%positive := freshPeriod 30 3 3]>
             (<[4%positive := freshPeriod 90 4 4]> ∅))))
    (<[1%positive := zeroCounters]>
       (<[2%positive := zeroCounters]>
          (<[3%positive := zeroCounters]>
             (<[4%positive := zeroCounters]> ∅))))
    (<[1%positive := []]>
       (<[2%positive := []]>
          (<[3%positive := []]>
             (<[4%positive := []]> ∅)))).

(** [const initialState]. *)
Definition initialState : BloodSugarAppState :=
  mkState defaultRange
    (<["7"%string := 1%positive]>
       (<["14"%string := 2%positive]>
          (<["30"%string := 3%positive]>
             (<["90"%string := 4%positive]> ∅))))
    "7".
End InitialState.

(** ** Reading a window through the heap *)

(** The contents of one period object with its nested objects: the
    WindowStats of a label as a caller observes it. *)
Record WindowStats : Type := mkWindow {
  w_startDate : string;
  w_endDate : string;
  w_average : option number;
  w_highest : option number;
  w_lowest : option number;
  w_counters : Counters.t;
  w_timeStats : BloodSugarTimeStats
}.

Definition deref (h : heap) (l : loc) : option WindowStats :=
  p ← periodObjs h !! l;
  c ← counterObjs h !! counters p;
  ts ← timeStatsObjs h !! timeStats p;
  Some (mkWindow (startDate p) (endDate p) (average p) (highest p) (lowest p) c ts).

(** The window of label [L] in state [s], read in heap [h]. *)
Definition window (h : heap) (s : BloodSugarAppState) (L : string)
    : option WindowStats :=
  l ← statsByPeriod s !! L; deref h l.

(** ** What one call of [addMeasurement] computes

    The new contents of the three objects of the current window, as the
    statements of [addMeasurement] compute them from the old contents. *)

Section Deltas.
#[local] Open Scope float_scope.

(** The counters after the classification chain. *)
Definition countLevel (r : Range.t) (level : number) (c : Counters.t) : Counters.t :=
  if Range.veryHigh r <? level then veryHigh_incr c
  else if (fst (Range.high r) <=? level) && (level <=? snd (Range.high r)) then high_incr c
  else if (fst (Range.normal r) <=? level) && (level <=? snd (Range.normal r)) then normal_incr c
  else if level <? Range.low r then low_incr c
  else c.

(** [highest] and [lowest] after their updates. *)
Definition widenHighest (hi : option number) (level : number) : number :=
  match hi with
  | None => level
  | Some h => if h <? level then level else h
  end.

Definition widenLowest (lo : option number) (level : number) : number :=
  match lo with
  | None => level
  | Some l => if level <? l then level else l
  end.

(** [totalMeasurements]. *)
Definition totalOf (c : Counters.t) : number :=
  Counters.veryHigh c + Counters.high c + Counters.normal c + Counters.low c.

(** The new [average]. *)
Definition nextAverage (avg : option number) (n level : number) : number :=
  (nullish avg 0 * (n - 1) + level) / n.

(** [totalForCategory]: the sum of the values of [timeStats]. *)
Definition totalForCategory (ts : BloodSugarTimeStats) : number :=
  reduce (λ total value, total + nullish value 0) 0 (Object_values ts).

(** The new [timeStats[timeCategory]]. *)
Definition nextTimeStat (ts : BloodSugarTimeStats) (k : TimeCategory)
    (n level : number) : number :=
  (nullish (tsGet k ts) 0 * (totalForCategory ts - 1) + level) / n.

Definition nextTimeStats (ts : BloodSugarTimeStats) (k : option TimeCategory)
    (n level : number) : BloodSugarTimeStats :=
  match k with
  | Some k => tsSet k (nextTimeStat ts k n level) ts
  | None => ts
  end.

Definition nextPeriod (p : BloodSugarPeriodStats) (c' : Counters.t)
    (level : number) : BloodSugarPeriodStats :=
  mkPeriod (startDate p) (endDate p)
           (Some (nextAverage (average p) (totalOf c') level))
           (Some (widenHighest (highest p) level))
           (Some (widenLowest (lowest p) level))
           (counters p) (timeStats p).
End Deltas.

(** The heap [h] with the three objects of the window at [l] replaced. *)
Definition put (l : loc) (p : BloodSugarPeriodStats) (c : Counters.t)
    (ts : BloodSugarTimeStats) (h : heap) : heap :=
  mkHeap (<[l := p]> (periodObjs h))
         (<[counters p := c]> (counterObjs h))
         (<[timeStats p := ts]> (timeStatsObjs h)).

(** The window after one call, from the window before it. *)
Definition nextWindow (r : Range.t) (level : number) (k : option TimeCategory)
    (w : WindowStats) : WindowStats :=
  let c' := countLevel r level (w_counters w) in
  mkWindow (w_startDate w) (w_endDate w)
           (Some (nextAverage (w_average w) (totalOf c') level))
           (Some (widenHighest (w_highest w) level))
           (Some (widenLowest (w_lowest w) level))
           c'
           (nextTimeStats (w_timeStats w) k (totalOf c') level).

(** ** Ownership *)

(** Two period objects share nothing: they are different objects with
    different nested objects. *)
Definition separate (h : heap) (l1 l2 : loc) : Prop :=
  match periodObjs h !! l1, periodObjs h !! l2 with
  | Some p1, Some p2 =>
      l1 ≠ l2 ∧ counters p1 ≠ counters p2 ∧ timeStats p1 ≠ timeStats p2
  | _, _ => True
  end.

#[global] Instance separate_dec h l1 l2 : Decision (separate h l1 l2).
Proof.
  unfold separate.
  destruct (periodObjs h !! l1), (periodObjs h !! l2); apply _.
Defined.

(** A state owns its windows: every label refers to objects the heap
    holds, and two labels share no object.  The literal of [initialState]
    builds such a state, and no operation of the module breaks it. *)
Definition owns (h : heap) (s : BloodSugarAppState) : Prop :=
  map_Forall (λ _ l, is_Some (deref h l)) (statsByPeriod s)
  ∧ map_Forall (λ L1 l1,
      map_Forall (λ L2 l2, L1 ≠ L2 → separate h l1 l2) (statsByPeriod s))
      (statsByPeriod s).

#[global] Instance owns_dec h s : Decision (owns h s).
Proof. unfold owns. apply _. Defined.

(** ** The classification as the specification words it

    The four band tests in their order; a level is counted in the first
    band whose test holds, and in none when no test holds. *)

Inductive Band : Type := VeryHigh | High | Normal | Low.

#[global] Instance Band_eq_dec : EqDecision Band.
Proof. solve_decision. Defined.

Definition bandTests (r : Range.t) (level : number) : list (Band * bool) :=
  [ (VeryHigh, (Range.veryHigh r <? level)%float);
    (High, ((fst (Range.high r) <=? level) && (level <=? snd (Range.high r)))%float);
    (Normal, ((fst (Range.normal r) <=? level) && (level <=? snd (Range.normal r)))%float);
    (Low, (level <? Range.low r)%float) ].

Definition firstMatch (r : Range.t) (level : number) : option Band :=
  fst <$> head (filter (λ t, snd t = true) (bandTests r level)).

Definition counterOf (b : Band) (c : Counters.t) : number :=
  match b with
  | VeryHigh => Counters.veryHigh c
  | High => Counters.high c
  | Normal => Counters.normal c
  | Low => Counters.low c
  end.

(** ** The larger and the smaller of two numbers *)

(** [m] is the maximum of [a] and [b] in the order of [<=?]. *)
Definition isMax (m a b : number) : Prop :=
  (m = a ∨ m = b) ∧ (a <=? m)%float = true ∧ (b <=? m)%float = true.

Definition isMin (m a b : number) : Prop :=
  (m = a ∨ m = b) ∧ (m <=? a)%float = true ∧ (m <=? b)%float = true.

(** ** Sequences of calls *)

(** One successful call of [addMeasurement] or of [switchPeriod]. *)
Inductive step : heap * BloodSugarAppState → heap * BloodSugarAppState → Prop :=
  | step_addMeasurement s level k h s' h' :
      addMeasurement s level k h = Ok s' h' → step (h, s) (h', s')
  | step_switchPeriod s L h s' h' :
      switchPeriod s L h = Ok s' h' → step (h, s) (h', s').

(** The states a finite sequence of successful calls reaches from the
    initial state. *)
Definition reachable (calculateDateOffset : number → string)
    (hs : heap * BloodSugarAppState) : Prop :=
  rtc step (initialHeap calculateDateOffset, initialState) hs.

(** The labels of [initialState]. *)
Definition periodLabels : gset string :=
  {[ "7"; "14"; "30"; "90" ]}%string.

(** ** The running average of a category as the specification words it

    The incremental mean of the window's average, applied to the category:
    the old category average weighted by [n - 1] and the whole divided by
    [n], the total count of the window. *)
Definition specTimeStat (old : option number) (n level : number) : number :=
  ((nullish old 0 * (n - 1) + level) / n)%float.

(** ** Scenarios *)

(** The window of label [L] after a run, when the run returned. *)
Definition windowOf (r : res BloodSugarAppState) (L : string) : option WindowStats :=
  match r with
  | Ok s h => window h s L
  | Thrown _ _ | Dangling => None
  end.

(** Dates left blank. *)
Definition noDates : number → string := λ _, ""%string.

(** A window as the literal of [initialState] builds it, dates blank. *)
Definition freshWindow : WindowStats :=
  mkWindow "" "" None None None zeroCounters [].

(** Thresholds with a gap between [low] (3) and [normal[0]] (4). *)
Definition gapRange : Range.t :=
  Range.mk 9%float (6%float, 9%float) (4%float, 6%float) 3%float.

Definition gapState : BloodSugarAppState :=
  mkState gapRange (statsByPeriod initialState) "7".

(** ** Further notions for the properties of the operations *)

(** [{ ...state, currentPeriod: L }]. *)
Definition stateOn (s : BloodSugarAppState) (L : string) : BloodSugarAppState :=
  mkState (range s) (statsByPeriod s) L.

(** The counters with one more reading in band [b]. *)
Definition countedIn (b : Band) (c : Counters.t) : Counters.t :=
  match b with
  | VeryHigh => veryHigh_incr c
  | High => high_incr c
  | Normal => normal_incr c
  | Low => low_incr c
  end.

(** The two bounds of a window are both null, or [lowest <= highest]. *)
Definition boundsOrdered (w : WindowStats) : Prop :=
  match w_lowest w, w_highest w with
  | None, None => True
  | Some lo, Some hi => (lo <=? hi)%float = true
  | _, _ => False
  end.

(** The heap a call leaves. *)
Definition heapOf {A : Type} (r : res A) : heap :=
  match r with
  | Ok _ h | Thrown _ h => h
  | Dangling => mkHeap ∅ ∅ ∅
  end.

(** The initial heap after one reading of NaN, and its window "7". *)
Definition nanHeap : heap :=
  heapOf (addMeasurement initialState nan None (initialHeap noDates)).

Definition nanWindow : WindowStats :=
  mkWindow "" "" (Some nan) (Some nan) (Some nan) zeroCounters [].

(** The initial heap after one reading of 5.5, and its window "7". *)
Definition oneReadingHeap : heap :=
  heapOf (addMeasurement initialState 5.5%float None (initialHeap noDates)).

Definition oneReadingWindow : WindowStats :=
  mkWindow "" "" (Some 5.5%float) (Some 5.5%float) (Some 5.5%float)
           (Counters.mk 0 0 1 0)%float [].

(** A sequence of calls of [addMeasurement], each on the state the call
    before it returned. *)
Fixpoint addMeasurements (state : BloodSugarAppState)
    (readings : list (number * option TimeCategory)) : M BloodSugarAppState :=
  match readings with
  | [] => mret state
  | (level, timeCategory) :: rest =>
      state' ← addMeasurement state level timeCategory;
      addMeasurements state' rest
  end.

(** The bounds of [w] are those of the levels [seen]: both null when no
    level was seen, and otherwise two of the levels with every level
    between them. *)
Definition tracksBounds (seen : list number) (w : WindowStats) : Prop :=
  match w_lowest w, w_highest w with
  | None, None => seen = []
  | Some lo, Some hi =>
      lo ∈ seen ∧ hi ∈ seen
      ∧ Forall (λ x, (lo <=? x)%float = true ∧ (x <=? hi)%float = true) seen
  | _, _ => False
  end.

(** ** Running the heap operations *)

Section Run.
Implicit Types (h : heap) (l : loc) (p : BloodSugarPeriodStats)
  (c : Counters.t) (ts : BloodSugarTimeStats).

Lemma bind_run {A B : Type} (m : M A) (f : A → M B) h a h' :
  m h = Ok a h' → (m ≫= f) h = f a h'.
Proof. intros E. unfold mbind, M_bind. by rewrite E. Qed.

Lemma heap_eq h1 h2 :
  periodObjs h1 = periodObjs h2 → counterObjs h1 = counterObjs h2 →
  timeStatsObjs h1 = timeStatsObjs h2 → h1 = h2.
Proof. destruct h1, h2; simpl; congruence. Qed.

(** A heap that holds the three objects is the heap with them put. *)
Lemma put_id h l p c ts :
  periodObjs h !! l = Some p → counterObjs h !! counters p = Some c →
  timeStatsObjs h !! timeStats p = Some ts → put l p c ts h = h.
Proof.
  intros Hp Hc Ht. apply heap_eq; simpl; by apply insert_id.
Qed.

Lemma readPeriod_put h l p c ts :
  readPeriod l (put l p c ts h) = Ok p (put l p c ts h).
Proof. unfold readPeriod; simpl. by rewrite lookup_insert_eq. Qed.

Lemma readCounters_put h l p c ts :
  readCounters (counters p) (put l p c ts h) = Ok c (put l p c ts h).
Proof. unfold readCounters; simpl. by rewrite lookup_insert_eq. Qed.

Lemma readTimeStats_put h l p c ts :
  readTimeStats (timeStats p) (put l p c ts h) = Ok ts (put l p c ts h).
Proof. unfold readTimeStats; simpl. by rewrite lookup_insert_eq. Qed.

Lemma writePeriod_put h l p p' c ts :
  counters p' = counters p → timeStats p' = timeStats p →
  writePeriod l p' (put l p c ts h) = Ok tt (put l p' c ts h).
Proof.
  intros Ec Et. unfold writePeriod, put; simpl.
  by rewrite Ec, Et, insert_insert_eq.
Qed.

Lemma writeCounters_put h l p c c' ts :
  writeCounters (counters p) c' (put l p c ts h) = Ok tt (put l p c' ts h).
Proof. unfold writeCounters, put; simpl. by rewrite insert_insert_eq. Qed.

Lemma writeTimeStats_put h l p c ts ts' :
  writeTimeStats (timeStats p) ts' (put l p c ts h) = Ok tt (put l p c ts' h).
Proof. unfold writeTimeStats, put; simpl. by rewrite insert_insert_eq. Qed.

Lemma incrCounter_put f h l p c ts :
  incrCounter f l (put l p c ts h) = Ok tt (put l p (f c) ts h).
Proof.
  unfold incrCounter.
  erewrite bind_run by apply readPeriod_put.
  erewrite bind_run by apply readCounters_put.
  apply writeCounters_put.
Qed.

Lemma setHighest_put v h l p c ts :
  setHighest l v (put l p c ts h)
  = Ok tt (put l (mkPeriod (startDate p) (endDate p) (average p) (Some v)
                           (lowest p) (counters p) (timeStats p)) c ts h).
Proof.
  unfold setHighest. erewrite bind_run by apply readPeriod_put.
  by apply writePeriod_put.
Qed.

Lemma setLowest_put v h l p c ts :
  setLowest l v (put l p c ts h)
  = Ok tt (put l (mkPeriod (startDate p) (endDate p) (average p) (highest p)
                           (Some v) (counters p) (timeStats p)) c ts h).
Proof.
  unfold setLowest. erewrite bind_run by apply readPeriod_put.
  by apply writePeriod_put.
Qed.

Lemma setAverage_put v h l p c ts :
  setAverage l v (put l p c ts h)
  = Ok tt (put l (mkPeriod (startDate p) (endDate p) (Some v) (highest p)
                           (lowest p) (counters p) (timeStats p)) c ts h).
Proof.
  unfold setAverage. erewrite bind_run by apply readPeriod_put.
  by apply writePeriod_put.
Qed.

(** The classification chain writes [countLevel] to the counters. *)
Lemma classify_put (r : Range.t) (level : number) h l p c ts :
  (if Range.veryHigh r <? level then incrCounter veryHigh_incr l
   else if (fst (Range.high r) <=? level) && (level <=? snd (Range.high r))
        then incrCounter high_incr l
   else if (fst (Range.normal r) <=? level) && (level <=? snd (Range.normal r))
        then incrCounter normal_incr l
   else if level <? Range.low r then incrCounter low_incr l
   else mret tt)%float (put l p c ts h)
  = Ok tt (put l p (countLevel r level c) ts h).
Proof.
  unfold countLevel.
  repeat case_match; try apply incrCounter_put; reflexivity.
Qed.

Lemma highest_put (level : number) h l p c ts :
  (if match highest p with None => true | Some hi => (hi <? level)%float end
   then setHighest l level else mret tt) (put l p c ts h)
  = Ok tt (put l (mkPeriod (startDate p) (endDate p) (average p)
                           (Some (widenHighest (highest p) level))
                           (lowest p) (counters p) (timeStats p)) c ts h).
Proof.
  destruct p as [sd ed av [hi|] lo cs tss]; simpl.
  - destruct (hi <? level)%float; [apply setHighest_put | reflexivity].
  - apply setHighest_put.
Qed.

Lemma lowest_put (level : number) h l p c ts :
  (if match lowest p with None => true | Some lo => (level <? lo)%float end
   then setLowest l level else mret tt) (put l p c ts h)
  = Ok tt (put l (mkPeriod (startDate p) (endDate p) (average p) (highest p)
                           (Some (widenLowest (lowest p) level))
                           (counters p) (timeStats p)) c ts h).
Proof.
  destruct p as [sd ed av hi [lo|] cs tss]; simpl.
  - destruct (level <? lo)%float; [apply setLowest_put | reflexivity].
  - apply setLowest_put.
Qed.

Lemma timeStats_put (k : option TimeCategory) (n level : number) h l p c ts :
  match k with
  | Some timeCategory =>
      p ← readPeriod l;
      ts ← readTimeStats (timeStats p);
      let currentStat := nullish (tsGet timeCategory ts) 0 in
      let totalForCategory :=
        reduce (λ total value, total + nullish value 0) 0 (Object_values ts) in
      writeTimeStats (timeStats p)
        (tsSet timeCategory
           ((currentStat * (totalForCategory - 1) + level) / n) ts)
  | None => mret tt
  end%float (put l p c ts h)
  = Ok tt (put l p c (nextTimeStats ts k n level) h).
Proof.
  destruct k as [k|]; simpl; [|reflexivity].
  erewrite bind_run by apply readPeriod_put.
  erewrite bind_run by apply readTimeStats_put.
  apply writeTimeStats_put.
Qed.

(** One call on a window whose objects the heap holds: the call returns
    the state it was given and replaces the contents of the three
    objects. *)
Lemma addMeasurement_put (s : BloodSugarAppState) (level : number)
    (k : option TimeCategory) h l p c ts :
  statsByPeriod s !! currentPeriod s = Some l →
  addMeasurement s level k (put l p c ts h)
  = Ok s (put l (nextPeriod p (countLevel (range s) level c) level)
                (countLevel (range s) level c)
                (nextTimeStats ts k (totalOf (countLevel (range s) level c)) level)
                h).
Proof.
  intros Hl. unfold addMeasurement, getProp. rewrite Hl. simpl.
  erewrite bind_run by reflexivity.
  erewrite bind_run by apply classify_put.
  erewrite bind_run by apply readPeriod_put.
  erewrite bind_run by apply highest_put.
  erewrite bind_run by apply readPeriod_put.
  erewrite bind_run by apply lowest_put.
  erewrite bind_run by apply readPeriod_put.
  erewrite bind_run by apply readCounters_put.
  simpl.
  erewrite bind_run by apply setAverage_put.
  erewrite bind_run by apply timeStats_put.
  simpl. unfold mret, M_ret. f_equal.
  destruct s as [r sbp cur]; simpl in *. f_equal. by apply insert_id.
Qed.

(** The same on any heap that holds the three objects. *)
Lemma addMeasurement_run (s : BloodSugarAppState) (level : number)
    (k : option TimeCategory) h l p c ts :
  statsByPeriod s !! currentPeriod s = Some l →
  periodObjs h !! l = Some p →
  counterObjs h !! counters p = Some c →
  timeStatsObjs h !! timeStats p = Some ts →
  addMeasurement s level k h
  = Ok s (put l (nextPeriod p (countLevel (range s) level c) level)
                (countLevel (range s) level c)
                (nextTimeStats ts k (totalOf (countLevel (range s) level c)) level)
                h).
Proof.
  intros Hl Hp Hc Ht.
  rewrite <- (put_id h l p c ts Hp Hc Ht) at 1.
  by apply addMeasurement_put.
Qed.

(** When the current label is not an own property of [statsByPeriod] the
    call throws a [TypeError] and writes nothing. *)
Lemma addMeasurement_throws (s : BloodSugarAppState) (level : number)
    (k : option TimeCategory) h :
  statsByPeriod s !! currentPeriod s = None →
  addMeasurement s level k h = Thrown TypeError h.
Proof.
  intros Hl. unfold addMeasurement, getProp. rewrite Hl.
  by case_bool_decide.
Qed.
End Run.

(** ** The order of numbers

    Facts on the comparisons of binary64 values, from their specification
    on [spec_float]. *)

Section NumberOrder.
Lemma compare_cont_swap (p q : positive) :
  PosDef.Pos.compare_cont Eq q p = CompOpp (PosDef.Pos.compare_cont Eq p q).
Proof. symmetry. exact (Pos.compare_cont_antisym p q Eq). Qed.

Lemma SFcompare_antisym (x y : spec_float) :
  SFcompare y x = CompOpp <$> SFcompare x y.
Proof.
  destruct x as [sx|sx| |sx mx ex], y as [sy|sy| |sy my ey]; simpl;
    try reflexivity; try (by destruct sx); try (by destruct sy);
    try (by destruct sx, sy).
  destruct sx, sy; simpl; try reflexivity; f_equal;
    rewrite (Z.compare_antisym ex ey); destruct (ex ?= ey)%Z; simpl;
    try reflexivity; by rewrite (compare_cont_swap mx my).
Qed.

Lemma SFcompare_refl (x : spec_float) :
  x ≠ S754_nan → SFcompare x x = Some Eq.
Proof.
  destruct x as [sx|sx| |sx mx ex]; simpl; try done.
  - by destruct sx.
  - intros _. rewrite Z.compare_refl.
    change (PosDef.Pos.compare_cont Eq mx mx) with (Pos.compare_cont Eq mx mx).
    rewrite Pos.compare_cont_refl. by destruct sx.
Qed.

Lemma SFcompare_total (x y : spec_float) :
  x ≠ S754_nan → y ≠ S754_nan → is_Some (SFcompare x y).
Proof. destruct x, y; simpl; try done; eauto. Qed.

Lemma not_nan_spec (x : number) : is_nan x = false → Prim2SF x ≠ S754_nan.
Proof.
  unfold is_nan. rewrite FloatAxioms.eqb_spec. unfold SFeqb.
  intros H E. by rewrite E in H.
Qed.

Lemma ltb_false_leb (a b : number) :
  is_nan a = false → is_nan b = false →
  (a <? b)%float = false → (b <=? a)%float = true.
Proof.
  intros Ha%not_nan_spec Hb%not_nan_spec.
  rewrite FloatAxioms.ltb_spec, FloatAxioms.leb_spec. unfold SFltb, SFleb.
  rewrite (SFcompare_antisym (Prim2SF a) (Prim2SF b)).
  destruct (SFcompare_total _ _ Ha Hb) as [c ->]. by destruct c.
Qed.

Lemma ltb_leb (a b : number) :
  (a <? b)%float = true → (a <=? b)%float = true.
Proof.
  rewrite FloatAxioms.ltb_spec, FloatAxioms.leb_spec. unfold SFltb, SFleb.
  by destruct (SFcompare _ _) as [[]|].
Qed.

Lemma leb_refl (a : number) : is_nan a = false → (a <=? a)%float = true.
Proof.
  intros Ha%not_nan_spec. rewrite FloatAxioms.leb_spec. unfold SFleb.
  by rewrite SFcompare_refl.
Qed.

(** On numbers that are not NaN, what [addMeasurement] keeps as
    [highest] is the maximum of the old bound and the level, and what it
    keeps as [lowest] is their minimum. *)
Lemma widenHighest_isMax (m level : number) :
  is_nan m = false → is_nan level = false →
  isMax (widenHighest (Some m) level) m level.
Proof.
  intros Hm Hl. unfold isMax, widenHighest.
  destruct (m <? level)%float eqn:E.
  - split; [by right|]. split; [by apply ltb_leb | by apply leb_refl].
  - split; [by left|]. split; [by apply leb_refl | by apply ltb_false_leb].
Qed.

Lemma widenLowest_isMin (m level : number) :
  is_nan m = false → is_nan level = false →
  isMin (widenLowest (Some m) level) m level.
Proof.
  intros Hm Hl. unfold isMin, widenLowest.
  destruct (level <? m)%float eqn:E.
  - split; [by right|]. split; [by apply ltb_leb | by apply leb_refl].
  - split; [by left|]. split; [by apply leb_refl | by apply ltb_false_leb].
Qed.
End NumberOrder.

(** ** Windows before and after a call *)

Section Windows.
Implicit Types (h : heap) (l : loc) (p : BloodSugarPeriodStats)
  (c : Counters.t) (ts : BloodSugarTimeStats) (s : BloodSugarAppState)
  (w : WindowStats) (L : string).

Lemma deref_Some h l w :
  deref h l = Some w →
  ∃ p, periodObjs h !! l = Some p
       ∧ counterObjs h !! counters p = Some (w_counters w)
       ∧ timeStatsObjs h !! timeStats p = Some (w_timeStats w)
       ∧ w = mkWindow (startDate p) (endDate p) (average p) (highest p)
                      (lowest p) (w_counters w) (w_timeStats w).
Proof.
  unfold deref. intros H.
  destruct (periodObjs h !! l) as [p|] eqn:Hp; simpl in H; [|done].
  destruct (counterObjs h !! counters p) as [c|] eqn:Hc; simpl in H; [|done].
  destruct (timeStatsObjs h !! timeStats p) as [ts|] eqn:Ht; simpl in H; [|done].
  inversion H; subst; simpl. by exists p.
Qed.

Lemma deref_put h l p c ts :
  deref (put l p c ts h) l
  = Some (mkWindow (startDate p) (endDate p) (average p) (highest p)
                   (lowest p) c ts).
Proof. unfold deref, put; simpl. by repeat (rewrite lookup_insert_eq; simpl). Qed.

(** An object that shares nothing with the window at [l] reads the same
    after the window is replaced. *)
Lemma deref_put_ne h l l' p p' c ts :
  periodObjs h !! l = Some p →
  counters p' = counters p → timeStats p' = timeStats p →
  is_Some (periodObjs h !! l') →
  separate h l' l →
  deref (put l p' c ts h) l' = deref h l'.
Proof.
  intros Hp Ec Et [p1 Hp1] Hsep. unfold separate in Hsep.
  rewrite Hp1, Hp in Hsep. destruct Hsep as (Hl & Hc & Ht).
  unfold deref, put; simpl.
  rewrite lookup_insert_ne by done. rewrite Hp1; simpl.
  rewrite Ec, Et. by rewrite !lookup_insert_ne by done.
Qed.

(** The call succeeds on a state whose current window the heap holds,
    returns that state, and leaves [nextWindow] in the current window. *)
Lemma addMeasurement_window s (level : number) (k : option TimeCategory) h w :
  window h s (currentPeriod s) = Some w →
  ∃ h', addMeasurement s level k h = Ok s h'
        ∧ window h' s (currentPeriod s) = Some (nextWindow (range s) level k w).
Proof.
  unfold window. intros H.
  destruct (statsByPeriod s !! currentPeriod s) as [l|] eqn:Hl; simpl in H; [|done].
  destruct (deref_Some _ _ _ H) as (p & Hp & Hc & Ht & Hw).
  eexists. split; [by eapply addMeasurement_run|].
  simpl. rewrite deref_put. f_equal. rewrite Hw. reflexivity.
Qed.

(** The windows of the other labels of a state that owns its windows are
    as they were. *)
Lemma addMeasurement_frame s (level : number) (k : option TimeCategory) h s' h' L :
  owns h s →
  addMeasurement s level k h = Ok s' h' →
  L ≠ currentPeriod s →
  window h' s' L = window h s L.
Proof.
  intros [Ha Hs] Hrun HL.
  destruct (statsByPeriod s !! currentPeriod s) as [l|] eqn:Hl;
    [|by rewrite addMeasurement_throws in Hrun].
  destruct (Ha _ _ Hl) as [w Hw].
  destruct (deref_Some _ _ _ Hw) as (p & Hp & Hc & Ht & _).
  rewrite (addMeasurement_run _ _ _ _ _ _ _ _ Hl Hp Hc Ht) in Hrun.
  inversion Hrun; subst s' h'; clear Hrun.
  unfold window. destruct (statsByPeriod s !! L) as [l'|] eqn:Hl'; simpl; [|done].
  destruct (Ha _ _ Hl') as [w' Hw'].
  destruct (deref_Some _ _ _ Hw') as (p1 & Hp1 & _).
  eapply deref_put_ne; eauto.
  exact (Hs _ _ Hl' _ _ Hl HL).
Qed.

(** Ownership is kept by a call. *)
Lemma addMeasurement_owns s (level : number) (k : option TimeCategory) h s' h' :
  owns h s → addMeasurement s level k h = Ok s' h' → owns h' s'.
Proof.
  intros [Ha Hs] Hrun.
  destruct (statsByPeriod s !! currentPeriod s) as [l|] eqn:Hl;
    [|by rewrite addMeasurement_throws in Hrun].
  destruct (Ha _ _ Hl) as [w Hw].
  destruct (deref_Some _ _ _ Hw) as (p & Hp & Hc & Ht & _).
  rewrite (addMeasurement_run _ _ _ _ _ _ _ _ Hl Hp Hc Ht) in Hrun.
  inversion Hrun; subst s' h'; clear Hrun.
  split.
  - intros L l' Hl'. simpl.
    destruct (decide (l' = l)) as [->|Hne]; [by rewrite deref_put|].
    destruct (decide (L = currentPeriod s)) as [->|HL]; [congruence|].
    destruct (Ha _ _ Hl') as [w' Hw'].
    destruct (deref_Some _ _ _ Hw') as (p1 & Hp1 & _).
    erewrite deref_put_ne; eauto.
    exact (Hs _ _ Hl' _ _ Hl HL).
  - intros L1 l1 Hl1 L2 l2 Hl2 HL. specialize (Hs _ _ Hl1 _ _ Hl2 HL).
    unfold separate in *. simpl.
    destruct (Ha _ _ Hl1) as [w1 Hw1].
    destruct (deref_Some _ _ _ Hw1) as (p1 & Hp1 & _).
    destruct (Ha _ _ Hl2) as [w2 Hw2].
    destruct (deref_Some _ _ _ Hw2) as (p2 & Hp2 & _).
    rewrite Hp1, Hp2 in Hs.
    destruct (decide (l1 = l)) as [->|Hn1], (decide (l2 = l)) as [->|Hn2];
      rewrite ?lookup_insert_eq, ?lookup_insert_ne by done;
      rewrite ?Hp1, ?Hp2; simplify_eq; simpl; done.
Qed.
End Windows.

(** ** Switching the period *)

Section Switching.
Implicit Types (h : heap) (s : BloodSugarAppState) (L : string).

(** A label that is an own property of [statsByPeriod] is accepted. *)
Lemma switchPeriod_own s L l h :
  statsByPeriod s !! L = Some l →
  switchPeriod s L h = Ok (mkState (range s) (statsByPeriod s) L) h.
Proof. intros Hl. unfold switchPeriod, getProp. by rewrite Hl. Qed.

(** So is a label that names a member of [Object.prototype]: the guard
    reads it through the prototype chain and finds it truthy. *)
Lemma switchPeriod_inherited s L h :
  statsByPeriod s !! L = None → L ∈ Object_prototype_keys →
  switchPeriod s L h = Ok (mkState (range s) (statsByPeriod s) L) h.
Proof.
  intros Hl Hin. unfold switchPeriod, getProp. rewrite Hl.
  by rewrite bool_decide_eq_true_2.
Qed.

(** Every other label is rejected, and nothing is written. *)
Lemma switchPeriod_invalid s L h :
  statsByPeriod s !! L = None → L ∉ Object_prototype_keys →
  switchPeriod s L h = Thrown (Error "Invalid period") h.
Proof.
  intros Hl Hin. unfold switchPeriod, getProp. rewrite Hl.
  by rewrite bool_decide_eq_false_2.
Qed.

(** The call throws exactly when the read of the label is [undefined]. *)
Lemma switchPeriod_throws_iff s L h :
  switchPeriod s L h = Thrown (Error "Invalid period") h
  ↔ statsByPeriod s !! L = None ∧ L ∉ Object_prototype_keys.
Proof.
  split.
  - intros H. destruct (statsByPeriod s !! L) as [l|] eqn:Hl.
    + by rewrite (switchPeriod_own _ _ _ _ Hl) in H.
    + split; [done|]. intros Hin.
      by rewrite (switchPeriod_inherited _ _ _ Hl Hin) in H.
  - intros [Hl Hin]. by apply switchPeriod_invalid.
Qed.

(** A successful call writes nothing and changes only [currentPeriod]. *)
Lemma switchPeriod_Ok s L h s' h' :
  switchPeriod s L h = Ok s' h' →
  h' = h ∧ s' = mkState (range s) (statsByPeriod s) L
  ∧ truthy (getProp (statsByPeriod s) L) = true.
Proof.
  unfold switchPeriod.
  destruct (truthy (getProp (statsByPeriod s) L)) eqn:E; simpl; [|done].
  unfold mret, M_ret. by intros [= <- <-].
Qed.

Lemma switchPeriod_owns s L h s' h' :
  owns h s → switchPeriod s L h = Ok s' h' → owns h' s'.
Proof. intros Ho (-> & -> & _)%switchPeriod_Ok. exact Ho. Qed.
End Switching.

(** ** The states a run reaches *)

Section Reachable.
Variable calculateDateOffset : number → string.

Lemma initial_owns : owns (initialHeap calculateDateOffset) initialState.
Proof. apply (bool_decide_unpack _). vm_compute. exact I. Qed.

Lemma initial_labels : dom (statsByPeriod initialState) = periodLabels.
Proof.
  unfold initialState, periodLabels; simpl.
  rewrite !dom_insert_L, dom_empty_L. set_solver.
Qed.

(** A successful [addMeasurement] on a state that owns its windows
    returns the state it was given. *)
Lemma addMeasurement_Ok_state (s : BloodSugarAppState) (level : number)
    (k : option TimeCategory) (h : heap) s' h' :
  owns h s → addMeasurement s level k h = Ok s' h' →
  s' = s ∧ is_Some (statsByPeriod s !! currentPeriod s).
Proof.
  intros [Ha _] Hrun.
  destruct (statsByPeriod s !! currentPeriod s) as [l|] eqn:Hl;
    [|by rewrite addMeasurement_throws in Hrun].
  destruct (Ha _ _ Hl) as [w Hw].
  destruct (deref_Some _ _ _ Hw) as (p & Hp & Hc & Ht & _).
  rewrite (addMeasurement_run _ _ _ _ _ _ _ _ Hl Hp Hc Ht) in Hrun.
  by inversion Hrun.
Qed.

(** Along every run the state owns its windows, keeps the range and the
    period objects of the initial state, and its current label reads as a
    truthy value. *)
Lemma reachable_inv (hs : heap * BloodSugarAppState) :
  reachable calculateDateOffset hs →
  owns hs.1 hs.2
  ∧ range hs.2 = defaultRange
  ∧ statsByPeriod hs.2 = statsByPeriod initialState
  ∧ truthy (getProp (statsByPeriod hs.2) (currentPeriod hs.2)) = true.
Proof.
  unfold reachable. intros Hr.
  eapply (rtc_ind_r (λ hs : heap * BloodSugarAppState,
            owns hs.1 hs.2 ∧ range hs.2 = defaultRange
            ∧ statsByPeriod hs.2 = statsByPeriod initialState
            ∧ truthy (getProp (statsByPeriod hs.2) (currentPeriod hs.2)) = true));
    [ | | exact Hr]; clear hs Hr.
  - split; [apply initial_owns|]. by vm_compute.
  - intros hs1 hs2 _ Hstep (Ho & Hrg & Hsb & Hcur).
    destruct Hstep as [s level k h s' h' Hrun | s L h s' h' Hrun]; simpl in *.
    + destruct (addMeasurement_Ok_state _ _ _ _ _ _ Ho Hrun) as [-> _].
      split; [by eapply addMeasurement_owns|]. done.
    + split; [by eapply switchPeriod_owns|].
      destruct (switchPeriod_Ok _ _ _ _ _ Hrun) as (-> & -> & Ht). simpl.
      done.
Qed.

(** The label set never changes. *)
Lemma reachable_labels (h : heap) (s : BloodSugarAppState) :
  reachable calculateDateOffset (h, s) → dom (statsByPeriod s) = periodLabels.
Proof.
  intros (_ & _ & Hsb & _)%reachable_inv. simpl in Hsb.
  rewrite Hsb. apply initial_labels.
Qed.

(** The current label is one of the four labels or the name of a member
    of [Object.prototype]. *)
Lemma reachable_current (h : heap) (s : BloodSugarAppState) :
  reachable calculateDateOffset (h, s) →
  currentPeriod s ∈ periodLabels ∨ currentPeriod s ∈ Object_prototype_keys.
Proof.
  intros Hr. destruct (reachable_inv _ Hr) as (_ & _ & _ & Ht).
  rewrite <- (reachable_labels h s Hr). simpl in Ht. unfold getProp in Ht.
  destruct (statsByPeriod s !! currentPeriod s) as [l|] eqn:Hl.
  - left. apply elem_of_dom. by exists l.
  - right. by case_bool_decide.
Qed.
End Reachable.

(** ** Time statistics *)

Lemma tsLookup_tsSet_ne (k k' : TimeCategory) (v : number) (ts : BloodSugarTimeStats) :
  k' ≠ k → tsLookup k' (tsSet k v ts) = tsLookup k' ts.
Proof.
  intros Hne. induction ts as [|[k0 v0] ts IH]; simpl.
  - by rewrite decide_False.
  - destruct (decide (k = k0)) as [->|Hk]; simpl.
    + by rewrite !decide_False.
    + by rewrite IH.
Qed.

Lemma tsLookup_tsSet_eq (k : TimeCategory) (v : number) (ts : BloodSugarTimeStats) :
  tsLookup k (tsSet k v ts) = Some (Some v).
Proof.
  induction ts as [|[k0 v0] ts IH]; simpl.
  - by rewrite decide_True.
  - destruct (decide (k = k0)) as [->|Hk]; simpl.
    + by rewrite decide_True.
    + by rewrite decide_False.
Qed.

Lemma tsGet_tsSet_eq (k : TimeCategory) (v : number) (ts : BloodSugarTimeStats) :
  tsGet k (tsSet k v ts) = Some v.
Proof. unfold tsGet. by rewrite tsLookup_tsSet_eq. Qed.

(** What a call with category [c] leaves as the average of [c]: the old
    average of [c] weighted by the sum of the stored averages less one,
    plus the level, over the total count of the window. *)
Lemma category_average_after (s : BloodSugarAppState) (level : number)
    (c : TimeCategory) (h : heap) (w : WindowStats) :
  window h s (currentPeriod s) = Some w →
  ∃ h' w',
    addMeasurement s level (Some c) h = Ok s h'
    ∧ window h' s (currentPeriod s) = Some w'
    ∧ tsGet c (w_timeStats w')
      = Some ((nullish (tsGet c (w_timeStats w)) 0
               * (totalForCategory (w_timeStats w) - 1) + level)
              / totalOf (w_counters w'))%float.
Proof.
  intros Hw.
  destruct (addMeasurement_window s level (Some c) h w Hw) as (h' & Hrun & Hw').
  exists h', (nextWindow (range s) level (Some c) w).
  split; [done|]. split; [done|]. simpl. by rewrite tsGet_tsSet_eq.
Qed.

(** ** The simulation run at load time *)

(** [simulateApp(initialState)] returns a state on period "14", and the
    window "7" of [initialState] itself holds the four readings afterwards:
    the copy the simulation works on shares its period objects. *)
Lemma simulateApp_writes_initialState (calculateDateOffset : number → string) :
  ∃ s h,
    simulateApp initialState (initialHeap calculateDateOffset) = Ok s h
    ∧ currentPeriod s = "14"%string
    ∧ window h initialState "7"
      = Some (mkWindow (calculateDateOffset 7) (calculateDateOffset 0)
                (Some 6.625) (Some 9.3) (Some 3.9)
                (Counters.mk 1 1 1 1)
                [(beforeBreakfast, Some 5.5); (afterLunch, Some 3.9);
                 (random, Some 3.1); (beforeSleep, Some 0.975)])%float.
Proof.
  eexists _, _. split; [vm_compute; reflexivity|].
  split; [reflexivity|]. vm_compute. reflexivity.
Qed.

(** ** The properties of the specification *)

Section Claims.
#[local] Open Scope float_scope.
Implicit Types (h : heap) (s : BloodSugarAppState) (w : WindowStats)
  (level : number) (k : option TimeCategory) (L : string).

(** C1 (the code departs from the claim).  Two readings, 5.5 before
    breakfast and then 7.8 after lunch, into the fresh window "7" of the
    initial state: the counters are normal 1, high 1, very high 0, low 0;
    the average is 6.65, the highest 7.8, the lowest 5.5, and the
    before-breakfast average 5.5, all as claimed.  The after-lunch average
    is 3.9, where the claim has 7.8, the average of the one after-lunch
    reading: the code divides by the count of all readings of the window. *)
Theorem C1_two_readings_fresh_window (calculateDateOffset : number → string) :
  windowOf ((s ← addMeasurement initialState 5.5 (Some beforeBreakfast);
             addMeasurement s 7.8 (Some afterLunch))
              (initialHeap calculateDateOffset)) "7"
  = Some (mkWindow (calculateDateOffset 7) (calculateDateOffset 0)
            (Some 6.65) (Some 7.8) (Some 5.5)
            (Counters.mk 0 1 1 0)
            [(beforeBreakfast, Some 5.5); (afterLunch, Some 3.9)])
  ∧ 3.9 ≠ 7.8.
Proof.
  split; [vm_compute; reflexivity|]. intros H. discriminate H.
Qed.

(** C2 (the code departs from the claim).  Two readings of one category,
    5.5 and then 7.8 before breakfast, into the fresh window "7": the claim
    gives the category average (5.5 * (2 - 1) + 7.8) / 2 = 6.65 after the
    second call; the code stores 16.275, because it weights the old
    category average by the sum of the stored category averages less one,
    (5.5 * (5.5 - 1) + 7.8) / 2, and not by [n - 1]. *)
Theorem C2_category_average_weight (calculateDateOffset : number → string) :
  let h0 := initialHeap calculateDateOffset in
  let r1 := addMeasurement initialState 5.5 (Some beforeBreakfast) h0 in
  let r2 := (s ← addMeasurement initialState 5.5 (Some beforeBreakfast);
             addMeasurement s 7.8 (Some beforeBreakfast)) h0 in
  (w_timeStats <$> windowOf r1 "7") = Some [(beforeBreakfast, Some 5.5)]
  ∧ (totalOf ∘ w_counters <$> windowOf r2 "7") = Some 2
  ∧ (w_timeStats <$> windowOf r2 "7") = Some [(beforeBreakfast, Some 16.275)]
  ∧ specTimeStat (Some 5.5) 2 7.8 = 6.65
  ∧ 16.275 ≠ 6.65.
Proof.
  repeat split; try (vm_compute; reflexivity). intros H. discriminate H.
Qed.

(** C3.  Whatever the thresholds and the level, a call tests the bands in
    the order very high, high, normal, low and adds one to the counter of
    the first band whose test holds, and to no other counter.  With the
    thresholds of the initial state a level of 6 is counted as high and
    not as normal. *)
Theorem C3_first_matching_band s level k h w :
  window h s (currentPeriod s) = Some w →
  ∃ h' w',
    addMeasurement s level k h = Ok s h'
    ∧ window h' s (currentPeriod s) = Some w'
    ∧ (∀ b : Band,
         counterOf b (w_counters w')
         = if decide (firstMatch (range s) level = Some b)
           then counterOf b (w_counters w) + 1
           else counterOf b (w_counters w))
    ∧ (range s = defaultRange → level = 6 →
       Counters.high (w_counters w') = Counters.high (w_counters w) + 1
       ∧ Counters.normal (w_counters w') = Counters.normal (w_counters w)).
Proof.
  intros Hw. destruct (addMeasurement_window s level k h w Hw) as (h' & Hrun & Hw').
  exists h', (nextWindow (range s) level k w). split; [done|]. split; [done|].
  split.
  - intros b. simpl. unfold firstMatch, bandTests, countLevel.
    destruct (Range.veryHigh (range s) <? level),
             (fst (Range.high (range s)) <=? level),
             (level <=? snd (Range.high (range s))),
             (fst (Range.normal (range s)) <=? level),
             (level <=? snd (Range.normal (range s))),
             (level <? Range.low (range s));
      destruct b; reflexivity.
  - intros -> ->. simpl. split; reflexivity.
Qed.

Lemma C3_first_matching_band_witness :
  ∃ h' w',
    addMeasurement initialState 6 None (initialHeap noDates) = Ok initialState h'
    ∧ window h' initialState "7" = Some w'
    ∧ (∀ b : Band,
         counterOf b (w_counters w')
         = if decide (firstMatch defaultRange 6 = Some b)
           then counterOf b zeroCounters + 1
           else counterOf b zeroCounters)
    ∧ (defaultRange = defaultRange → 6 = 6 →
       Counters.high (w_counters w') = Counters.high zeroCounters + 1
       ∧ Counters.normal (w_counters w') = Counters.normal zeroCounters).
Proof.
  apply (C3_first_matching_band initialState 6 None (initialHeap noDates) freshWindow).
  reflexivity.
Defined.

(** C4 (the code departs from the claim).  "toString" is not a key of the
    statistics mapping of the initial state, and [switchPeriod] does not
    raise the invalid-period error on it: the guard reads
    [statsByPeriod["toString"]] through the prototype chain, finds
    [Object.prototype.toString], and the call returns a state whose
    current period is "toString". *)
Theorem C4_inherited_label_accepted (calculateDateOffset : number → string) :
  statsByPeriod initialState !! "toString"%string = None
  ∧ switchPeriod initialState "toString" (initialHeap calculateDateOffset)
    = Ok (mkState defaultRange (statsByPeriod initialState) "toString")
         (initialHeap calculateDateOffset).
Proof.
  split; [by vm_compute|].
  apply switchPeriod_inherited; [by vm_compute|].
  apply (bool_decide_unpack _). by vm_compute.
Qed.

(** C5.  On a state that owns its windows, the state a call returns has
    the range, the current label and the mapping of the state it was
    given, and the window of every label other than the current one reads
    as it did before the call.  The call writes to the objects of the
    current window in place, so ownership is what keeps the other labels
    apart from them. *)
Theorem C5_other_windows_unchanged s level k h s' h' :
  owns h s →
  addMeasurement s level k h = Ok s' h' →
  range s' = range s
  ∧ currentPeriod s' = currentPeriod s
  ∧ statsByPeriod s' = statsByPeriod s
  ∧ ∀ L, L ≠ currentPeriod s → window h' s' L = window h s L.
Proof.
  intros Ho Hrun.
  destruct (addMeasurement_Ok_state s level k h s' h' Ho Hrun) as [Hs _].
  repeat split; try by rewrite Hs.
  intros L HL. by eapply addMeasurement_frame.
Qed.

Lemma C5_other_windows_unchanged_witness :
  ∃ h',
    owns (initialHeap noDates) initialState
    ∧ addMeasurement initialState 5.5 (Some beforeBreakfast) (initialHeap noDates)
      = Ok initialState h'
    ∧ (range initialState = range initialState
       ∧ currentPeriod initialState = currentPeriod initialState
       ∧ statsByPeriod initialState = statsByPeriod initialState
       ∧ ∀ L, L ≠ currentPeriod initialState →
              window h' initialState L = window (initialHeap noDates) initialState L).
Proof.
  eexists. split; [apply (bool_decide_unpack _); vm_compute; exact I|].
  split; [vm_compute; reflexivity|].
  apply (C5_other_windows_unchanged initialState 5.5 (Some beforeBreakfast)
           (initialHeap noDates)).
  - apply (bool_decide_unpack _); vm_compute; exact I.
  - vm_compute; reflexivity.
Defined.

(** C6.  A call sets [highest] and [lowest] of the current window to the
    level when they were null.  Otherwise the new [highest] is the level
    when the level is greater than the old [highest] and the old [highest]
    when it is not, which for numbers that are not NaN is the maximum of
    the two; the new [lowest] is the level when the level is less than the
    old [lowest] and the old [lowest] when it is not, their minimum. *)
Theorem C6_highest_lowest s level k h w :
  window h s (currentPeriod s) = Some w →
  ∃ h' w',
    addMeasurement s level k h = Ok s h'
    ∧ window h' s (currentPeriod s) = Some w'
    ∧ (w_highest w = None → w_highest w' = Some level)
    ∧ (w_lowest w = None → w_lowest w' = Some level)
    ∧ (∀ hi, w_highest w = Some hi →
         w_highest w' = Some (if hi <? level then level else hi)
         ∧ (is_nan hi = false → is_nan level = false →
            ∃ m, w_highest w' = Some m ∧ isMax m hi level))
    ∧ (∀ lo, w_lowest w = Some lo →
         w_lowest w' = Some (if level <? lo then level else lo)
         ∧ (is_nan lo = false → is_nan level = false →
            ∃ m, w_lowest w' = Some m ∧ isMin m lo level)).
Proof.
  intros Hw. destruct (addMeasurement_window s level k h w Hw) as (h' & Hrun & Hw').
  exists h', (nextWindow (range s) level k w). split; [done|]. split; [done|].
  simpl. split; [by intros ->|]. split; [by intros ->|]. split.
  - intros hi Hhi. rewrite Hhi. split; [done|].
    intros Hn Hl. eexists. split; [done|]. by apply widenHighest_isMax.
  - intros lo Hlo. rewrite Hlo. split; [done|].
    intros Hn Hl. eexists. split; [done|]. by apply widenLowest_isMin.
Qed.

Lemma C6_highest_lowest_witness :
  ∃ h' w',
    addMeasurement initialState 5.5 None (initialHeap noDates) = Ok initialState h'
    ∧ window h' initialState "7" = Some w'
    ∧ (w_highest freshWindow = None → w_highest w' = Some 5.5)
    ∧ (w_lowest freshWindow = None → w_lowest w' = Some 5.5)
    ∧ (∀ hi, w_highest freshWindow = Some hi →
         w_highest w' = Some (if hi <? 5.5 then 5.5 else hi)
         ∧ (is_nan hi = false → is_nan 5.5 = false →
            ∃ m, w_highest w' = Some m ∧ isMax m hi 5.5))
    ∧ (∀ lo, w_lowest freshWindow = Some lo →
         w_lowest w' = Some (if 5.5 <? lo then 5.5 else lo)
         ∧ (is_nan lo = false → is_nan 5.5 = false →
            ∃ m, w_lowest w' = Some m ∧ isMin m lo 5.5)).
Proof.
  apply (C6_highest_lowest initialState 5.5 None (initialHeap noDates) freshWindow).
  reflexivity.
Defined.

(** C7.  When the level matches none of the four band tests, a call adds
    to no counter, and still sets [highest], [lowest] and [average] of the
    current window from the level. *)
Theorem C7_gap_counts_nothing s level k h w :
  window h s (currentPeriod s) = Some w →
  firstMatch (range s) level = None →
  ∃ h' w',
    addMeasurement s level k h = Ok s h'
    ∧ window h' s (currentPeriod s) = Some w'
    ∧ w_counters w' = w_counters w
    ∧ w_highest w' = Some (widenHighest (w_highest w) level)
    ∧ w_lowest w' = Some (widenLowest (w_lowest w) level)
    ∧ w_average w'
      = Some ((nullish (w_average w) 0 * (totalOf (w_counters w) - 1) + level)
              / totalOf (w_counters w)).
Proof.
  intros Hw Hgap.
  destruct (addMeasurement_window s level k h w Hw) as (h' & Hrun & Hw').
  exists h', (nextWindow (range s) level k w). split; [done|]. split; [done|].
  assert (Hc : countLevel (range s) level (w_counters w) = w_counters w).
  { revert Hgap. unfold firstMatch, bandTests, countLevel.
    destruct (Range.veryHigh (range s) <? level),
             (fst (Range.high (range s)) <=? level),
             (level <=? snd (Range.high (range s))),
             (fst (Range.normal (range s)) <=? level),
             (level <=? snd (Range.normal (range s))),
             (level <? Range.low (range s)); simpl; done. }
  simpl. rewrite Hc. done.
Qed.

Lemma C7_gap_counts_nothing_witness :
  ∃ h' w',
    addMeasurement gapState 3.5 None (initialHeap noDates) = Ok gapState h'
    ∧ window h' gapState "7" = Some w'
    ∧ w_counters w' = zeroCounters
    ∧ w_highest w' = Some 3.5
    ∧ w_lowest w' = Some 3.5
    ∧ w_average w' = Some ((0 * (totalOf zeroCounters - 1) + 3.5) / totalOf zeroCounters).
Proof.
  apply (C7_gap_counts_nothing gapState 3.5 None (initialHeap noDates) freshWindow);
    reflexivity.
Defined.

(** C8.  For every label that is a key of the statistics mapping,
    [switchPeriod] succeeds without writing anything, and
    [getCurrentPeriodStats] on the state it returns gives the period the
    mapping has at that label. *)
Theorem C8_switch_then_get s L (l : loc) h :
  statsByPeriod s !! L = Some l →
  ∃ s',
    switchPeriod s L h = Ok s' h
    ∧ getCurrentPeriodStats s' = getProp (statsByPeriod s) L
    ∧ getCurrentPeriodStats s' = PeriodRef l
    ∧ window h s' (currentPeriod s') = window h s L.
Proof.
  intros Hl. eexists. split; [by eapply switchPeriod_own|].
  unfold getCurrentPeriodStats, getProp; simpl. by rewrite Hl.
Qed.

Lemma C8_switch_then_get_witness :
  ∃ s',
    switchPeriod initialState "14" (initialHeap noDates) = Ok s' (initialHeap noDates)
    ∧ getCurrentPeriodStats s' = getProp (statsByPeriod initialState) "14"
    ∧ getCurrentPeriodStats s' = PeriodRef 2
    ∧ window (initialHeap noDates) s' (currentPeriod s')
      = window (initialHeap noDates) initialState "14".
Proof.
  apply (C8_switch_then_get initialState "14" 2%positive (initialHeap noDates)).
  reflexivity.
Defined.

(** C9 (the code departs from the claim).  After the one successful call
    [switchPeriod(initialState, "toString")] the labels of the mapping are
    still "7", "14", "30" and "90", and the current period, "toString", is
    not one of them. *)
Theorem C9_current_label_leaves_mapping (calculateDateOffset : number → string) :
  ∃ h s,
    reachable calculateDateOffset (h, s)
    ∧ dom (statsByPeriod s) = periodLabels
    ∧ currentPeriod s = "toString"%string
    ∧ currentPeriod s ∉ dom (statsByPeriod s).
Proof.
  exists (initialHeap calculateDateOffset),
         (mkState defaultRange (statsByPeriod initialState) "toString").
  split.
  - unfold reachable. eapply rtc_r; [apply rtc_refl|].
    apply step_switchPeriod with (L := "toString"%string).
    apply switchPeriod_inherited; [by vm_compute|].
    apply (bool_decide_unpack _). by vm_compute.
  - split; [exact initial_labels|]. split; [reflexivity|].
    change ("toString"%string ∉ dom (statsByPeriod initialState)).
    rewrite initial_labels. apply (bool_decide_unpack _). by vm_compute.
Qed.

(** C10.  A call with a time category changes no property of the current
    window's time statistics other than that of the category, and a call
    without one leaves the time statistics as they were. *)
Theorem C10_other_categories_unchanged s level k h w :
  window h s (currentPeriod s) = Some w →
  ∃ h' w',
    addMeasurement s level k h = Ok s h'
    ∧ window h' s (currentPeriod s) = Some w'
    ∧ match k with
      | Some c => ∀ c', c' ≠ c →
                    tsLookup c' (w_timeStats w') = tsLookup c' (w_timeStats w)
      | None => w_timeStats w' = w_timeStats w
      end.
Proof.
  intros Hw. destruct (addMeasurement_window s level k h w Hw) as (h' & Hrun & Hw').
  exists h', (nextWindow (range s) level k w). split; [done|]. split; [done|].
  destruct k as [c|]; simpl; [|done].
  intros c' Hne. by apply tsLookup_tsSet_ne.
Qed.

Lemma C10_other_categories_unchanged_witness :
  ∃ h' w',
    addMeasurement initialState 5.5 (Some afterLunch) (initialHeap noDates)
    = Ok initialState h'
    ∧ window h' initialState "7" = Some w'
    ∧ ∀ c', c' ≠ afterLunch →
        tsLookup c' (w_timeStats w') = tsLookup c' (w_timeStats freshWindow).
Proof.
  apply (C10_other_categories_unchanged initialState 5.5 (Some afterLunch)
           (initialHeap noDates) freshWindow).
  reflexivity.
Defined.
End Claims.

(** ** More on the order and the arithmetic of numbers *)

Section NumberFacts.
#[local] Open Scope float_scope.

Lemma nan_spec (x : number) : is_nan x = true → Prim2SF x = S754_nan.
Proof.
  unfold is_nan. rewrite FloatAxioms.eqb_spec. unfold SFeqb. intros H.
  destruct (Prim2SF x) as [sx|sx| |sx mx ex] eqn:E; try done;
    by rewrite SFcompare_refl in H.
Qed.

Lemma spec_nan (x : number) : Prim2SF x = S754_nan → is_nan x = true.
Proof.
  intros E. unfold is_nan. rewrite FloatAxioms.eqb_spec, E. reflexivity.
Qed.

(** Every comparison with NaN is false. *)
Lemma ltb_nan_l (a b : number) : is_nan a = true → (a <? b) = false.
Proof. intros E%nan_spec. by rewrite FloatAxioms.ltb_spec, E. Qed.

Lemma ltb_nan_r (a b : number) : is_nan b = true → (a <? b) = false.
Proof.
  intros E%nan_spec. rewrite FloatAxioms.ltb_spec, E. unfold SFltb.
  by destruct (Prim2SF a).
Qed.

Lemma leb_nan_l (a b : number) : is_nan a = true → (a <=? b) = false.
Proof. intros E%nan_spec. by rewrite FloatAxioms.leb_spec, E. Qed.

Lemma leb_nan_r (a b : number) : is_nan b = true → (a <=? b) = false.
Proof.
  intros E%nan_spec. rewrite FloatAxioms.leb_spec, E. unfold SFleb.
  by destruct (Prim2SF a).
Qed.

Lemma leb_true_not_nan (a b : number) :
  (a <=? b) = true → is_nan a = false ∧ is_nan b = false.
Proof.
  intros H. split.
  - destruct (is_nan a) eqn:E; [|done]. by rewrite (leb_nan_l a b E) in H.
  - destruct (is_nan b) eqn:E; [|done]. by rewrite (leb_nan_r a b E) in H.
Qed.

(** NaN is absorbing for the arithmetic of the averages. *)
Lemma add_nan (a b : number) :
  is_nan a = true ∨ is_nan b = true → is_nan (a + b) = true.
Proof.
  intros H. apply spec_nan. rewrite FloatAxioms.add_spec. unfold SF64add.
  destruct H as [E%nan_spec|E%nan_spec]; rewrite E; [done|].
  by destruct (Prim2SF a).
Qed.

Lemma mul_nan (a b : number) :
  is_nan a = true ∨ is_nan b = true → is_nan (a * b) = true.
Proof.
  intros H. apply spec_nan. rewrite FloatAxioms.mul_spec. unfold SF64mul.
  destruct H as [E%nan_spec|E%nan_spec]; rewrite E; [done|].
  by destruct (Prim2SF a).
Qed.

Lemma div_nan (a b : number) :
  is_nan a = true ∨ is_nan b = true → is_nan (a / b) = true.
Proof.
  intros H. apply spec_nan. rewrite FloatAxioms.div_spec. unfold SF64div.
  destruct H as [E%nan_spec|E%nan_spec]; rewrite E; [done|].
  by destruct (Prim2SF a).
Qed.


Lemma SFleb_trans (x y z : spec_float) :
  SFleb x y = true → SFleb y z = true → SFleb x z = true.
Proof.
  unfold SFleb.
  destruct x as [sx|sx| |sx mx ex], y as [sy|sy| |sy my ey], z as [sz|sz| |sz mz ez];
    simpl; try done;
    try (destruct sx; simpl; try done); try (destruct sy; simpl; try done);
    try (destruct sz; simpl; try done);
    repeat match goal with
      | |- context [PosDef.Pos.compare_cont Eq ?p ?q] =>
          change (PosDef.Pos.compare_cont Eq p q) with (Pos.compare p q)
      end;
    destruct (Z.compare_spec ex ey), (Z.compare_spec ey ez), (Z.compare_spec ex ez);
    simpl; try done; try lia;
    destruct (Pos.compare_spec mx my), (Pos.compare_spec my mz), (Pos.compare_spec mx mz);
    simpl; try done; try lia.
Qed.

Lemma leb_trans (a b c : number) :
  (a <=? b) = true → (b <=? c) = true → (a <=? c) = true.
Proof. rewrite !FloatAxioms.leb_spec. apply SFleb_trans. Qed.

(** A quotient by zero is NaN or infinite. *)
Lemma div_zero (a b : number) :
  (b =? 0) = true → is_nan (a / b) = true ∨ is_infinity (a / b) = true.
Proof.
  rewrite FloatAxioms.eqb_spec. unfold SFeqb.
  change (Prim2SF 0) with (S754_zero false). intros Hb.
  assert (∃ s, Prim2SF b = S754_zero s) as [s Es].
  { destruct (Prim2SF b) as [s|s| |s m e] eqn:E; simpl in Hb; try done; eauto.
    - by destruct s.
    - by destruct s. }
  assert (Prim2SF (a / b) = S754_nan ∨ ∃ s', Prim2SF (a / b) = S754_infinity s')
    as [E|[s' E]].
  { rewrite FloatAxioms.div_spec, Es. unfold SF64div.
    destruct (Prim2SF a); simpl; eauto. }
  - left. by apply spec_nan.
  - right. unfold is_infinity.
    rewrite FloatAxioms.eqb_spec, FloatAxioms.abs_spec, E. by vm_compute.
Qed.

End NumberFacts.

(** ** Further properties of the operations *)

Section Outcomes.
#[local] Open Scope float_scope.
Implicit Types (h : heap) (s : BloodSugarAppState) (w : WindowStats)
  (level : number) (k : option TimeCategory) (L : string).

(** X1.  When the current label is not a key of the mapping,
    [getCurrentPeriodStats] yields no period and [addMeasurement] throws a
    [TypeError] without writing to any object. *)
Theorem X1_recording_on_missing_period s level k h :
  statsByPeriod s !! currentPeriod s = None →
  addMeasurement s level k h = Thrown TypeError h
  ∧ ∀ l : loc, getCurrentPeriodStats s ≠ PeriodRef l.
Proof.
  intros Hl. split; [by apply addMeasurement_throws|].
  intros l. unfold getCurrentPeriodStats, getProp. rewrite Hl.
  by case_bool_decide.
Qed.

Lemma X1_recording_on_missing_period_witness :
  addMeasurement (stateOn initialState "toString") 5.5 None (initialHeap noDates)
  = Thrown TypeError (initialHeap noDates)
  ∧ ∀ l : loc, getCurrentPeriodStats (stateOn initialState "toString") ≠ PeriodRef l.
Proof.
  apply (X1_recording_on_missing_period (stateOn initialState "toString") 5.5 None
           (initialHeap noDates)).
  vm_compute. reflexivity.
Defined.

(** X2.  [switchPeriod] has two outcomes and writes to no object in
    either: for a label that is a key of the mapping or the name of a
    member of [Object.prototype] it returns the state with only
    [currentPeriod] replaced; for every other label it throws the error
    "Invalid period". *)
Theorem X2_switchPeriod_outcome s L h :
  switchPeriod s L h
  = if decide (is_Some (statsByPeriod s !! L) ∨ L ∈ Object_prototype_keys)
    then Ok (stateOn s L) h
    else Thrown (Error "Invalid period") h.
Proof.
  case_decide as H.
  - destruct (statsByPeriod s !! L) as [l|] eqn:Hl.
    + by eapply switchPeriod_own.
    + destruct H as [[? [=]]|Hin]. by apply switchPeriod_inherited.
  - destruct (statsByPeriod s !! L) as [l|] eqn:Hl.
    + destruct H. left. by eexists.
    + apply switchPeriod_invalid; [done|]. intros Hin. apply H. by right.
Qed.

(** X3.  Of two switches in a row the second decides: when the first
    label is accepted, switching to it and then to a second label has the
    outcome of switching to the second label at once, and switching to the
    first label again changes nothing. *)
Theorem X3_switchPeriod_last_wins s (L1 L2 : string) h :
  truthy (getProp (statsByPeriod s) L1) = true →
  (s1 ← switchPeriod s L1; switchPeriod s1 L2) h = switchPeriod s L2 h
  ∧ (s1 ← switchPeriod s L1; switchPeriod s1 L1) h = switchPeriod s L1 h.
Proof.
  intros Ht.
  assert (H1 : switchPeriod s L1 h = Ok (stateOn s L1) h).
  { unfold switchPeriod. by rewrite Ht. }
  split; erewrite bind_run by exact H1; reflexivity.
Qed.

Lemma X3_switchPeriod_last_wins_witness :
  (s1 ← switchPeriod initialState "14"; switchPeriod s1 "30") (initialHeap noDates)
  = switchPeriod initialState "30" (initialHeap noDates)
  ∧ (s1 ← switchPeriod initialState "14"; switchPeriod s1 "14") (initialHeap noDates)
    = switchPeriod initialState "14" (initialHeap noDates).
Proof.
  apply (X3_switchPeriod_last_wins initialState "14" "30" (initialHeap noDates)).
  vm_compute. reflexivity.
Defined.



(** X5.  After every call the average of the current window is the old
    average (0 when it was null) times [n - 1], plus the level, over [n],
    where [n] is the sum of the four counters after the call has counted
    the level. *)
Theorem X5_average_after s level k h w :
  window h s (currentPeriod s) = Some w →
  ∃ h' w',
    addMeasurement s level k h = Ok s h'
    ∧ window h' s (currentPeriod s) = Some w'
    ∧ w_average w'
      = Some ((nullish (w_average w) 0 * (totalOf (w_counters w') - 1) + level)
              / totalOf (w_counters w')).
Proof.
  intros Hw. destruct (addMeasurement_window s level k h w Hw) as (h' & Hrun & Hw').
  by exists h', (nextWindow (range s) level k w).
Qed.

Lemma X5_average_after_witness :
  ∃ h' w',
    addMeasurement initialState 7.8 None oneReadingHeap = Ok initialState h'
    ∧ window h' initialState "7" = Some w'
    ∧ w_average w'
      = Some ((nullish (Some 5.5) 0 * (totalOf (w_counters w') - 1) + 7.8)
              / totalOf (w_counters w')).
Proof.
  apply (X5_average_after initialState 7.8 None oneReadingHeap oneReadingWindow).
  vm_compute. reflexivity.
Defined.

(** X6.  After a call with a category the entry of that category is the
    old entry (0 when there was none) times the sum of all stored category
    averages less one, plus the level, over the count of all readings of
    the window. *)
Theorem X6_category_entry_after s level (c : TimeCategory) h w :
  window h s (currentPeriod s) = Some w →
  ∃ h' w',
    addMeasurement s level (Some c) h = Ok s h'
    ∧ window h' s (currentPeriod s) = Some w'
    ∧ tsGet c (w_timeStats w')
      = Some ((nullish (tsGet c (w_timeStats w)) 0
               * (fold_left (λ total value, total + nullish value 0)
                            (map snd (w_timeStats w)) 0 - 1)
               + level)
              / totalOf (w_counters w')).
Proof. apply category_average_after. Qed.

Lemma X6_category_entry_after_witness :
  ∃ h' w',
    addMeasurement initialState 7.8 (Some afterLunch) oneReadingHeap = Ok initialState h'
    ∧ window h' initialState "7" = Some w'
    ∧ tsGet afterLunch (w_timeStats w')
      = Some ((nullish (tsGet afterLunch []) 0
               * (fold_left (λ total value, total + nullish value 0)
                            (map snd (@nil (TimeCategory * option number))) 0 - 1)
               + 7.8)
              / totalOf (w_counters w')).
Proof.
  apply (X6_category_entry_after initialState 7.8 afterLunch oneReadingHeap
           oneReadingWindow).
  vm_compute. reflexivity.
Defined.


End Outcomes.

(** ** Readings that are NaN, bounds, and thresholds *)

Section Numbers.
#[local] Open Scope float_scope.
Implicit Types (h : heap) (s : BloodSugarAppState) (w : WindowStats)
  (level : number) (k : option TimeCategory) (L : string).


Lemma countLevel_firstMatch (r : Range.t) level (c : Counters.t) :
  countLevel r level c
  = match firstMatch r level with Some b => countedIn b c | None => c end.
Proof.
  unfold firstMatch, bandTests, countLevel.
  destruct (Range.veryHigh r <? level),
           (fst (Range.high r) <=? level), (level <=? snd (Range.high r)),
           (fst (Range.normal r) <=? level), (level <=? snd (Range.normal r)),
           (level <? Range.low r); reflexivity.
Qed.



(** X9.  A reading of NaN is not rejected: whatever the thresholds, it is
    counted in no band, it makes the average of the window NaN, and it
    leaves bounds that were set as they are. *)
Theorem X9_nan_reading s level k h w :
  window h s (currentPeriod s) = Some w →
  is_nan level = true →
  ∃ h' w' (a : number),
    addMeasurement s level k h = Ok s h'
    ∧ window h' s (currentPeriod s) = Some w'
    ∧ w_counters w' = w_counters w
    ∧ w_average w' = Some a ∧ is_nan a = true
    ∧ (∀ hi, w_highest w = Some hi → w_highest w' = Some hi)
    ∧ (∀ lo, w_lowest w = Some lo → w_lowest w' = Some lo).
Proof.
  intros Hw Hn.
  destruct (addMeasurement_window s level k h w Hw) as (h' & Hrun & Hw').
  assert (Hc : countLevel (range s) level (w_counters w) = w_counters w).
  { unfold countLevel.
    by rewrite (ltb_nan_r _ _ Hn), (ltb_nan_l _ _ Hn), !(leb_nan_r _ _ Hn). }
  eexists h', (nextWindow (range s) level k w), _.
  split; [done|]. split; [done|]. simpl. rewrite Hc.
  split; [done|]. split; [done|]. split.
  - unfold nextAverage. apply div_nan. left. apply add_nan. by right.
  - split.
    + intros hi ->. simpl. by rewrite (ltb_nan_r _ _ Hn).
    + intros lo ->. simpl. by rewrite (ltb_nan_l _ _ Hn).
Qed.

Lemma X9_nan_reading_witness :
  ∃ h' w' (a : number),
    addMeasurement initialState nan None oneReadingHeap = Ok initialState h'
    ∧ window h' initialState "7" = Some w'
    ∧ w_counters w' = w_counters oneReadingWindow
    ∧ w_average w' = Some a ∧ is_nan a = true
    ∧ (∀ hi, w_highest oneReadingWindow = Some hi → w_highest w' = Some hi)
    ∧ (∀ lo, w_lowest oneReadingWindow = Some lo → w_lowest w' = Some lo).
Proof.
  apply (X9_nan_reading initialState nan None oneReadingHeap oneReadingWindow);
    vm_compute; reflexivity.
Defined.

(** X10.  NaN does not wear off: once the average of a window is NaN it is
    NaN after every later call, and a bound that is NaN is never replaced,
    whatever the levels recorded afterwards. *)
Theorem X10_nan_stays s level k h w :
  window h s (currentPeriod s) = Some w →
  ∃ h' w',
    addMeasurement s level k h = Ok s h'
    ∧ window h' s (currentPeriod s) = Some w'
    ∧ (∀ a, w_average w = Some a → is_nan a = true →
         ∃ a', w_average w' = Some a' ∧ is_nan a' = true)
    ∧ (∀ hi, w_highest w = Some hi → is_nan hi = true → w_highest w' = Some hi)
    ∧ (∀ lo, w_lowest w = Some lo → is_nan lo = true → w_lowest w' = Some lo).
Proof.
  intros Hw.
  destruct (addMeasurement_window s level k h w Hw) as (h' & Hrun & Hw').
  exists h', (nextWindow (range s) level k w).
  split; [done|]. split; [done|]. simpl. split; [|split].
  - intros a Ha Hn. eexists. split; [done|]. rewrite Ha. unfold nextAverage; simpl.
    apply div_nan. left. apply add_nan. left. apply mul_nan. by left.
  - intros hi -> Hn. simpl. by rewrite (ltb_nan_l _ _ Hn).
  - intros lo -> Hn. simpl. by rewrite (ltb_nan_r _ _ Hn).
Qed.

Lemma X10_nan_stays_witness :
  ∃ h' w',
    addMeasurement initialState 5.5 None nanHeap = Ok initialState h'
    ∧ window h' initialState "7" = Some w'
    ∧ (∀ a, w_average nanWindow = Some a → is_nan a = true →
         ∃ a', w_average w' = Some a' ∧ is_nan a' = true)
    ∧ (∀ hi, w_highest nanWindow = Some hi → is_nan hi = true →
         w_highest w' = Some hi)
    ∧ (∀ lo, w_lowest nanWindow = Some lo → is_nan lo = true →
         w_lowest w' = Some lo).
Proof.
  apply (X10_nan_stays initialState 5.5 None nanHeap nanWindow).
  vm_compute. reflexivity.
Defined.

(** X11.  The bounds stay ordered: when [lowest] and [highest] are both
    null or [lowest <= highest], then after a call with a level that is
    not NaN both are set, [lowest <= level <= highest], and
    [lowest <= highest] again. *)
Theorem X11_bounds_ordered s level k h w :
  window h s (currentPeriod s) = Some w →
  boundsOrdered w →
  is_nan level = false →
  ∃ h' w' (lo hi : number),
    addMeasurement s level k h = Ok s h'
    ∧ window h' s (currentPeriod s) = Some w'
    ∧ w_lowest w' = Some lo ∧ w_highest w' = Some hi
    ∧ (lo <=? level) = true ∧ (level <=? hi) = true
    ∧ boundsOrdered w'.
Proof.
  intros Hw Hb Hn.
  destruct (addMeasurement_window s level k h w Hw) as (h' & Hrun & Hw').
  eexists h', (nextWindow (range s) level k w), _, _.
  split; [done|]. split; [done|]. split; [reflexivity|]. split; [reflexivity|].
  unfold boundsOrdered in *. simpl.
  destruct (w_lowest w) as [lo|], (w_highest w) as [hi|]; simpl; try done.
  - destruct (leb_true_not_nan _ _ Hb) as [Hlo Hhi].
    destruct (level <? lo) eqn:E1, (hi <? level) eqn:E2.
    + pose proof (leb_refl _ Hn). done.
    + pose proof (leb_refl _ Hn) as Hr. split; [done|].
      pose proof (ltb_false_leb _ _ Hhi Hn E2) as H1. done.
    + pose proof (leb_refl _ Hn) as Hr.
      pose proof (ltb_false_leb _ _ Hn Hlo E1) as H1. done.
    + pose proof (ltb_false_leb _ _ Hn Hlo E1) as H1.
      pose proof (ltb_false_leb _ _ Hhi Hn E2) as H2. done.
  - pose proof (leb_refl _ Hn). done.
Qed.

Lemma X11_bounds_ordered_witness :
  ∃ h' w' (lo hi : number),
    addMeasurement initialState 7.8 None oneReadingHeap = Ok initialState h'
    ∧ window h' initialState "7" = Some w'
    ∧ w_lowest w' = Some lo ∧ w_highest w' = Some hi
    ∧ (lo <=? 7.8) = true ∧ (7.8 <=? hi) = true
    ∧ boundsOrdered w'.
Proof.
  apply (X11_bounds_ordered initialState 7.8 None oneReadingHeap oneReadingWindow);
    vm_compute; reflexivity.
Defined.

(** X12.  A level that matches no band, recorded in a window whose
    counters sum to zero, divides by zero: the average of the window
    becomes NaN or infinite. *)
Theorem X12_uncounted_reading_in_empty_window s level k h w :
  window h s (currentPeriod s) = Some w →
  firstMatch (range s) level = None →
  (totalOf (w_counters w) =? 0) = true →
  ∃ h' w' (a : number),
    addMeasurement s level k h = Ok s h'
    ∧ window h' s (currentPeriod s) = Some w'
    ∧ w_average w' = Some a
    ∧ (is_nan a = true ∨ is_infinity a = true).
Proof.
  intros Hw Hgap Hz.
  destruct (addMeasurement_window s level k h w Hw) as (h' & Hrun & Hw').
  eexists h', (nextWindow (range s) level k w), _.
  split; [done|]. split; [done|]. split; [reflexivity|].
  simpl. rewrite countLevel_firstMatch, Hgap. unfold nextAverage.
  by apply div_zero.
Qed.

Lemma X12_uncounted_reading_in_empty_window_witness :
  ∃ h' w' (a : number),
    addMeasurement gapState 3.5 None (initialHeap noDates) = Ok gapState h'
    ∧ window h' gapState "7" = Some w'
    ∧ w_average w' = Some a
    ∧ (is_nan a = true ∨ is_infinity a = true).
Proof.
  apply (X12_uncounted_reading_in_empty_window gapState 3.5 None
           (initialHeap noDates) freshWindow); reflexivity.
Defined.
End Numbers.

(** ** Sequences of readings *)

Section Sequences.
#[local] Open Scope float_scope.
Implicit Types (h : heap) (s : BloodSugarAppState) (w : WindowStats)
  (level : number) (k : option TimeCategory) (seen : list number).

(** One more level keeps the bounds those of the levels seen. *)
Lemma tracksBounds_step (r : Range.t) level k seen w :
  is_nan level = false →
  tracksBounds seen w →
  tracksBounds (seen ++ [level]) (nextWindow r level k w).
Proof.
  intros Hn. unfold tracksBounds. simpl.
  pose proof (leb_refl _ Hn) as Hr.
  destruct (w_lowest w) as [lo|], (w_highest w) as [hi|]; simpl; try done.
  - intros (Hlo & Hhi & Hall).
    assert (Hlon : is_nan lo = false).
    { rewrite Forall_forall in Hall. by destruct (leb_true_not_nan _ _ (proj1 (Hall _ Hlo))). }
    assert (Hhin : is_nan hi = false).
    { rewrite Forall_forall in Hall. by destruct (leb_true_not_nan _ _ (proj2 (Hall _ Hhi))). }
    assert (Hlo' : ((if level <? lo then level else lo) <=? lo) = true
                   ∧ ((if level <? lo then level else lo) <=? level) = true).
    { destruct (level <? lo) eqn:E.
      - split; [by apply ltb_leb | done].
      - split; [by apply leb_refl | by apply ltb_false_leb]. }
    assert (Hhi' : (hi <=? (if hi <? level then level else hi)) = true
                   ∧ (level <=? (if hi <? level then level else hi)) = true).
    { destruct (hi <? level) eqn:E.
      - split; [by apply ltb_leb | done].
      - split; [by apply leb_refl | by apply ltb_false_leb]. }
    split; [|split].
    + apply elem_of_app. destruct (level <? lo); [right|by left].
      by apply list_elem_of_singleton.
    + apply elem_of_app. destruct (hi <? level); [right|by left].
      by apply list_elem_of_singleton.
    + apply Forall_app. split.
      * eapply Forall_impl; [exact Hall|]. intros x [H1 H2]. split.
        -- eapply leb_trans; [exact (proj1 Hlo')|exact H1].
        -- eapply leb_trans; [exact H2|exact (proj1 Hhi')].
      * apply Forall_singleton. split; [exact (proj2 Hlo')|exact (proj2 Hhi')].
  - intros ->. simpl.
    split; [by apply list_elem_of_singleton|].
    split; [by apply list_elem_of_singleton|].
    by apply Forall_singleton.
Qed.

Lemma addMeasurements_tracks s (readings : list (number * option TimeCategory)) :
  ∀ h w seen,
    window h s (currentPeriod s) = Some w →
    Forall (λ r, is_nan r.1 = false) readings →
    tracksBounds seen w →
    ∃ h' w',
      addMeasurements s readings h = Ok s h'
      ∧ window h' s (currentPeriod s) = Some w'
      ∧ tracksBounds (seen ++ map fst readings) w'.
Proof.
  induction readings as [|[level k] rest IH]; intros h w seen Hw Hall Ht; simpl.
  - exists h, w. by rewrite app_nil_r.
  - apply Forall_cons in Hall as [Hn Hall]. simpl in Hn.
    destruct (addMeasurement_window s level k h w Hw) as (h1 & Hrun & Hw1).
    destruct (IH h1 _ (seen ++ [level]) Hw1 Hall
                (tracksBounds_step (range s) level k seen w Hn Ht))
      as (h' & w' & Hrun' & Hw' & Ht').
    exists h', w'. split; [by erewrite bind_run by exact Hrun|].
    split; [done|]. by rewrite <- app_assoc in Ht'.
Qed.

(** X13.  The running bounds are right: after any non-empty sequence of
    readings, none of them NaN, into a window whose bounds were null,
    [lowest] and [highest] are two of the recorded levels and every
    recorded level lies between them. *)
Theorem X13_bounds_of_a_sequence s (readings : list (number * option TimeCategory)) h w :
  window h s (currentPeriod s) = Some w →
  w_lowest w = None → w_highest w = None →
  Forall (λ r, is_nan r.1 = false) readings →
  readings ≠ [] →
  ∃ h' w' (lo hi : number),
    addMeasurements s readings h = Ok s h'
    ∧ window h' s (currentPeriod s) = Some w'
    ∧ w_lowest w' = Some lo ∧ w_highest w' = Some hi
    ∧ lo ∈ map fst readings ∧ hi ∈ map fst readings
    ∧ Forall (λ x, (lo <=? x) = true ∧ (x <=? hi) = true) (map fst readings).
Proof.
  intros Hw Hlo Hhi Hall Hne.
  destruct (addMeasurements_tracks s readings h w [] Hw Hall)
    as (h' & w' & Hrun & Hw' & Ht).
  { unfold tracksBounds. by rewrite Hlo, Hhi. }
  simpl in Ht. unfold tracksBounds in Ht.
  destruct (w_lowest w') as [lo|] eqn:El, (w_highest w') as [hi|] eqn:Eh; try done.
  - destruct Ht as (H1 & H2 & H3). by exists h', w', lo, hi.
  - destruct readings; [done|]. done.
Qed.

Lemma X13_bounds_of_a_sequence_witness :
  ∃ h' w' (lo hi : number),
    addMeasurements initialState
      [(5.5, Some beforeBreakfast); (7.8, Some afterLunch); (3.9, None)]
      (initialHeap noDates) = Ok initialState h'
    ∧ window h' initialState "7" = Some w'
    ∧ w_lowest w' = Some lo ∧ w_highest w' = Some hi
    ∧ lo ∈ [5.5; 7.8; 3.9] ∧ hi ∈ [5.5; 7.8; 3.9]
    ∧ Forall (λ x, (lo <=? x) = true ∧ (x <=? hi) = true) [5.5; 7.8; 3.9].
Proof.
  apply (X13_bounds_of_a_sequence initialState
           [(5.5, Some beforeBreakfast); (7.8, Some afterLunch); (3.9, None)]
           (initialHeap noDates) freshWindow); try reflexivity.
  - repeat constructor.
  - discriminate.
Defined.
End Sequences.

(** ** Runs, periods side by side, and the simulation *)

Section Runs.
#[local] Open Scope float_scope.
Implicit Types (h : heap) (s : BloodSugarAppState) (w : WindowStats)
  (level : number) (k : option TimeCategory) (L : string).

(** X14.  Every state that successful calls of [addMeasurement] and
    [switchPeriod] reach from [initialState] owns its windows, has the
    thresholds and the four period objects of [initialState] under the
    labels "7", "14", "30" and "90", and has as current label one of the
    four or the name of a member of [Object.prototype]. *)
Theorem X14_run_invariant (calculateDateOffset : number → string) h s :
  reachable calculateDateOffset (h, s) →
  owns h s
  ∧ range s = defaultRange
  ∧ statsByPeriod s = statsByPeriod initialState
  ∧ dom (statsByPeriod s) = periodLabels
  ∧ (currentPeriod s ∈ periodLabels ∨ currentPeriod s ∈ Object_prototype_keys).
Proof.
  intros Hr. destruct (reachable_inv _ _ Hr) as (Ho & Hrg & Hsb & _).
  split; [done|]. split; [done|]. split; [done|].
  split; [by eapply reachable_labels | by eapply reachable_current].
Qed.

Lemma X14_run_invariant_witness :
  owns (initialHeap noDates) initialState
  ∧ range initialState = defaultRange
  ∧ statsByPeriod initialState = statsByPeriod initialState
  ∧ dom (statsByPeriod initialState) = periodLabels
  ∧ (currentPeriod initialState ∈ periodLabels
     ∨ currentPeriod initialState ∈ Object_prototype_keys).
Proof.
  apply (X14_run_invariant noDates (initialHeap noDates) initialState).
  apply rtc_refl.
Defined.

(** X15.  In a state reached from [initialState], a recording succeeds
    when the current label is one of the four labels, and the state it
    leaves is reached too; when the current label is not one of them (a
    name of [Object.prototype] that [switchPeriod] let through) it throws
    a [TypeError] and writes nothing. *)
Theorem X15_recording_in_a_run (calculateDateOffset : number → string) h s level k :
  reachable calculateDateOffset (h, s) →
  (currentPeriod s ∈ periodLabels →
   ∃ h', addMeasurement s level k h = Ok s h'
         ∧ reachable calculateDateOffset (h', s))
  ∧ (currentPeriod s ∉ periodLabels →
     addMeasurement s level k h = Thrown TypeError h).
Proof.
  intros Hr. destruct (reachable_inv _ _ Hr) as ([Ha Hs] & _ & _ & _).
  pose proof (reachable_labels _ _ _ Hr) as Hd. simpl in *. split.
  - intros Hin. rewrite <- Hd in Hin. apply elem_of_dom in Hin as [l Hl].
    destruct (Ha _ _ Hl) as [w Hw].
    destruct (addMeasurement_window s level k h w) as (h' & Hrun & _).
    { unfold window. by rewrite Hl. }
    exists h'. split; [done|].
    unfold reachable. eapply rtc_r; [exact Hr|]. by eapply step_addMeasurement.
  - intros Hnin. apply addMeasurement_throws.
    rewrite <- Hd in Hnin. by apply not_elem_of_dom.
Qed.

Lemma X15_recording_in_a_run_witness :
  (currentPeriod initialState ∈ periodLabels →
   ∃ h', addMeasurement initialState 5.5 None (initialHeap noDates) = Ok initialState h'
         ∧ reachable noDates (h', initialState))
  ∧ (currentPeriod initialState ∉ periodLabels →
     addMeasurement initialState 5.5 None (initialHeap noDates)
     = Thrown TypeError (initialHeap noDates)).
Proof.
  apply (X15_recording_in_a_run noDates (initialHeap noDates) initialState 5.5 None).
  apply rtc_refl.
Defined.

(** X16.  The periods accumulate side by side: switching to another
    label, recording there and switching back returns the state one
    started from, with the reading in the window of the other label and
    the window of the current label as it was. *)
Theorem X16_periods_side_by_side s L level k h :
  owns h s →
  is_Some (statsByPeriod s !! currentPeriod s) →
  is_Some (statsByPeriod s !! L) →
  L ≠ currentPeriod s →
  ∃ h' wL,
    (s1 ← switchPeriod s L;
     s2 ← addMeasurement s1 level k;
     switchPeriod s2 (currentPeriod s)) h = Ok s h'
    ∧ window h s L = Some wL
    ∧ window h' s L = Some (nextWindow (range s) level k wL)
    ∧ window h' s (currentPeriod s) = window h s (currentPeriod s).
Proof.
  intros Ho [l0 Hl0] [l Hl] Hne. destruct s as [r sbp cur]; simpl in *.
  destruct (proj1 Ho _ _ Hl) as [wL HwL]. simpl in *.
  set (s1 := mkState r sbp L).
  assert (Hw1 : window h s1 (currentPeriod s1) = Some wL).
  { unfold window; simpl. by rewrite Hl. }
  destruct (addMeasurement_window s1 level k h wL Hw1) as (h' & Hrun & Hw').
  exists h', wL.
  split.
  - erewrite bind_run by (eapply switchPeriod_own; exact Hl).
    erewrite bind_run by exact Hrun.
    by eapply switchPeriod_own.
  - split; [exact Hw1|]. split; [exact Hw'|].
    apply (addMeasurement_frame s1 level k h s1 h' cur Ho Hrun).
    simpl. congruence.
Qed.

Lemma X16_periods_side_by_side_witness :
  ∃ h' wL,
    (s1 ← switchPeriod initialState "14";
     s2 ← addMeasurement s1 5.5 None;
     switchPeriod s2 (currentPeriod initialState)) (initialHeap noDates)
    = Ok initialState h'
    ∧ window (initialHeap noDates) initialState "14" = Some wL
    ∧ window h' initialState "14" = Some (nextWindow (range initialState) 5.5 None wL)
    ∧ window h' initialState (currentPeriod initialState)
      = window (initialHeap noDates) initialState (currentPeriod initialState).
Proof.
  apply (X16_periods_side_by_side initialState "14" 5.5 None (initialHeap noDates)).
  - apply (bool_decide_unpack _). vm_compute. exact I.
  - vm_compute. eexists. reflexivity.
  - vm_compute. eexists. reflexivity.
  - discriminate.
Defined.

(** X17.  [simulateApp] does not fail on a database whose current label
    has a window: it writes its four readings into that window of the
    database it was given, in place, and returns the state on period "14"
    when the database has one and, the error of [switchPeriod] being
    caught, on the current period of the database when it has none. *)
Theorem X17_simulateApp_outcome (databaseObject : BloodSugarAppState) h w :
  window h databaseObject (currentPeriod databaseObject) = Some w →
  ∃ h',
    simulateApp databaseObject h
    = Ok (stateOn databaseObject
            (if decide (is_Some (statsByPeriod databaseObject !! "14"%string))
             then "14"%string else currentPeriod databaseObject)) h'
    ∧ window h' databaseObject (currentPeriod databaseObject)
      = Some (nextWindow (range databaseObject) 3.9 (Some beforeSleep)
               (nextWindow (range databaseObject) 9.3 (Some random)
                 (nextWindow (range databaseObject) 7.8 (Some afterLunch)
                   (nextWindow (range databaseObject) 5.5 (Some beforeBreakfast) w)))).
Proof.
  intros Hw. destruct databaseObject as [r sbp cur]. unfold simulateApp, stateOn.
  simpl in *. set (s := mkState r sbp cur) in *.
  destruct (addMeasurement_window s 5.5 (Some beforeBreakfast) h _ Hw) as (h1 & R1 & W1).
  destruct (addMeasurement_window s 7.8 (Some afterLunch) h1 _ W1) as (h2 & R2 & W2).
  destruct (addMeasurement_window s 9.3 (Some random) h2 _ W2) as (h3 & R3 & W3).
  destruct (addMeasurement_window s 3.9 (Some beforeSleep) h3 _ W3) as (h4 & R4 & W4).
  exists h4. split; [|exact W4].
  erewrite bind_run by exact R1. erewrite bind_run by exact R2.
  erewrite bind_run by exact R3. erewrite bind_run by exact R4.
  destruct (sbp !! "14"%string) as [l|] eqn:Hl.
  - rewrite decide_True by by eexists.
    erewrite bind_run; [reflexivity|].
    unfold catch. by rewrite (switchPeriod_own s "14" l h4 Hl).
  - rewrite decide_False by by intros [? [=]].
    erewrite bind_run; [reflexivity|].
    unfold catch. rewrite (switchPeriod_invalid s "14" h4 Hl); [reflexivity|].
    apply (bool_decide_unpack _). by vm_compute.
Qed.

Lemma X17_simulateApp_outcome_witness :
  ∃ h',
    simulateApp gapState (initialHeap noDates)
    = Ok (stateOn gapState
            (if decide (is_Some (statsByPeriod gapState !! "14"%string))
             then "14"%string else currentPeriod gapState)) h'
    ∧ window h' gapState (currentPeriod gapState)
      = Some (nextWindow (range gapState) 3.9 (Some beforeSleep)
               (nextWindow (range gapState) 9.3 (Some random)
                 (nextWindow (range gapState) 7.8 (Some afterLunch)
                   (nextWindow (range gapState) 5.5 (Some beforeBreakfast)
                      freshWindow)))).
Proof.
  apply (X17_simulateApp_outcome gapState (initialHeap noDates) freshWindow).
  reflexivity.
Defined.
End Runs.
